(** * nanodesign converter: the orchestration layer of [converters/converter.py]

    The development embeds [Converter.__init__], [Converter.read_cadnano_file],
    [Converter.perform_staple_operations] and the four [write_*] methods as
    programs of a small state-and-exception monad over the converter object
    and a chronological log of the calls made to its collaborators
    (reader, structure builder, sequence assigner, structure model, logger).

    [ConverterFileFormats] and [set_module_loggers] touch neither the
    converter's structure nor its collaborators and are left out.

    Python values are represented as follows.
    - [str] is [string]; arguments are ASCII text (a [None] argument, which
      is falsy like the empty string, is represented by the empty string),
      and paths are POSIX paths.
    - [int] is [Z].
    - a [dict] with string keys is a [gmap string _].
    - an attribute holding [None] or an object is an [option].
    - a local variable that may be unbound is an [option] as well, and
      reading it while unbound raises [UnboundLocalError]. *)

From Stdlib Require Import ZArith Ascii String List Bool Lia.
From stdpp Require Import base option list gmap sets strings.

Local Open Scope Z_scope.

(** ** Python string primitives used by the converter *)

Module PyStr.

Definition code (c : ascii) : Z := Z.of_nat (nat_of_ascii c).

Definition is_digit (c : ascii) : bool := (48 <=? code c) && (code c <=? 57).

Definition is_alpha (c : ascii) : bool :=
  ((65 <=? code c) && (code c <=? 90)) || ((97 <=? code c) && (code c <=? 122)).

(** The class [\w] of [re] on ASCII text: letters, digits and underscore. *)
Definition is_word (c : ascii) : bool :=
  is_alpha c || is_digit c || (code c =? 95).

(** Whitespace skipped by [int()]: TAB..CR, FS..US and SPACE. *)
Definition is_space (c : ascii) : bool :=
  ((9 <=? code c) && (code c <=? 13)) || ((28 <=? code c) && (code c <=? 32)).

(** [s.partition(sep)] for a one-character separator, [None] when the
    separator does not occur. *)
Fixpoint partition (sep : ascii) (s : string) : option (string * string) :=
  match s with
  | EmptyString => None
  | String c rest =>
      if Ascii.eqb c sep then Some (EmptyString, rest)
      else match partition sep rest with
           | Some (before, after) => Some (String c before, after)
           | None => None
           end
  end.

(** [s.split(sep, 1)]: at most one split, at the first separator. *)
Definition split1 (sep : ascii) (s : string) : list string :=
  match partition sep s with
  | Some (before, after) => [before; after]
  | None => [s]
  end.

(** [re.compile('\W').split(s)]: every non-word character separates two
    (possibly empty) pieces. *)
Fixpoint re_split_nonword (s : string) : list string :=
  match s with
  | EmptyString => [EmptyString]
  | String c rest =>
      if is_word c then
        match re_split_nonword rest with
        | piece :: pieces => String c piece :: pieces
        | [] => [String c EmptyString]
        end
      else EmptyString :: re_split_nonword rest
  end.

Fixpoint lstrip (s : string) : string :=
  match s with
  | String c rest => if is_space c then lstrip rest else s
  | EmptyString => EmptyString
  end.

Fixpoint rstrip (s : string) : string :=
  match s with
  | String c rest =>
      let r := rstrip rest in
      if is_space c && String.eqb r EmptyString then EmptyString
      else String c r
  | EmptyString => EmptyString
  end.

(** Decimal digits with single underscores between digits (PEP 515).
    [after_digit] tells whether the previous character was a digit. *)
Fixpoint int_digits (acc : Z) (after_digit : bool) (s : string) : option Z :=
  match s with
  | EmptyString => if after_digit then Some acc else None
  | String c rest =>
      if is_digit c then int_digits (10 * acc + (code c - 48)) true rest
      else if (code c =? 95) && after_digit then int_digits acc false rest
      else None
  end.

(** [int(s)] in base ten; [None] stands for [ValueError].  The limit on
    the number of digits of recent interpreters is not represented. *)
Definition int (s : string) : option Z :=
  match rstrip (lstrip s) with
  | String "+"%char body => int_digits 0 false body
  | String "-"%char body => Z.opp <$> int_digits 0 false body
  | body => int_digits 0 false body
  end.

Fixpoint rfind_from (c : ascii) (i last : Z) (l : list ascii) : Z :=
  match l with
  | [] => last
  | x :: rest => rfind_from c (i + 1) (if Ascii.eqb x c then i else last) rest
  end.

(** [p.rfind(c)]: index of the last occurrence, [-1] when there is none. *)
Definition rfind (c : ascii) (l : list ascii) : Z := rfind_from c 0 (-1) l.

(** [os.path.splitext] of [posixpath] ([genericpath._splitext] with
    separator [/] and extension separator [.]): the extension starts at
    the last dot of the last path component, unless that component
    consists of leading dots only up to it. *)
Definition splitext (p : string) : string * string :=
  let l := list_ascii_of_string p in
  let sepIndex := rfind "/"%char l in
  let dotIndex := rfind "."%char l in
  if (sepIndex <? dotIndex)
     && existsb (fun c => negb (Ascii.eqb c "."%char))
          (take (Z.to_nat (dotIndex - (sepIndex + 1)))
             (drop (Z.to_nat (sepIndex + 1)) l))
  then (string_of_list_ascii (take (Z.to_nat dotIndex) l),
        string_of_list_ascii (drop (Z.to_nat dotIndex) l))
  else (p, EmptyString).

End PyStr.

(** ** Exceptions and outcomes *)

Inductive Exn :=
| AttributeError (attr : string)     (* attribute access on [None] *)
| UnboundLocalError (var : string)   (* a [NameError]: local read before assignment *)
| ValueError (literal : string)      (* [int()] on a malformed literal *)
| UnknownSequenceName (name : string)
| UnknownHelixReference
| MalformedConnectivity
| IOError (file_name : string).

(** [isinstance(e, NameError)] *)
Definition is_NameError (e : Exn) : bool :=
  match e with UnboundLocalError _ => true | _ => false end.

Inductive Outcome (A : Type) :=
| Ok (a : A)
| Raise (e : Exn).
Arguments Ok {A} a.
Arguments Raise {A} e.

(** ** Structure model *)

Inductive Role := Scaffold | Staple.

#[global] Instance Role_eq_dec : EqDecision Role.
Proof. solve_decision. Defined.

Inductive Nucleotide := dA | dC | dG | dT.

(** Modelled from the spec: the Base of section 3 (the structure model's
    module is absent): the helix and offset it sits at and its optional
    nucleotide letter. *)
Record Base := {
  base_helix : Z;
  base_offset : Z;
  base_letter : option Nucleotide
}.

(** Modelled from the spec: the Strand of section 3 (the structure model's
    module is absent): a role, a colour tag and the Bases it owns. *)
Record Strand := {
  strand_role : Role;
  strand_color : Z;
  strand_bases : list Base
}.

(** Modelled from the spec: the Structure Model of section 3 (the structure
    model's module is absent), reduced to what staple operations read: the
    helix ids and the strands, keyed by strand id (a StrandRef). *)
Record DnaStructure := {
  helices : list Z;
  strands : gmap Z Strand
}.

Definition is_staple (entry : Z * Strand) : Prop := strand_role entry.2 = Staple.
Definition is_scaffold (entry : Z * Strand) : Prop := strand_role entry.2 = Scaffold.

#[global] Instance is_staple_dec entry : Decision (is_staple entry).
Proof. unfold is_staple. apply _. Defined.
#[global] Instance is_scaffold_dec entry : Decision (is_scaffold entry).
Proof. unfold is_scaffold. apply _. Defined.

(** The staple strands and the scaffold strands of a model. *)
Definition staple_strands (s : DnaStructure) : gmap Z Strand := filter is_staple (strands s).
Definition scaffold_strands (s : DnaStructure) : gmap Z Strand := filter is_scaffold (strands s).
Definition staple_set (s : DnaStructure) : gset Z := dom (staple_strands s).

(** Modelled from the spec: [DnaStructure.get_staples_by_color] (absent),
    section 4.3: every staple Strand whose colour tag is a member of
    [colors]. *)
Definition get_staples_by_color (s : DnaStructure) (colors : list Z) : gset Z :=
  dom (filter (fun entry : Z * Strand => is_staple entry /\ strand_color entry.2 ∈ colors)
         (strands s)).

(** Modelled from the spec: [DnaStructure.remove_staples] (absent),
    section 4.3: deletes every staple Strand not in [retain], together with
    the Bases it owns; scaffold strands are never removed. *)
Definition remove_staples (s : DnaStructure) (retain : gset Z) : DnaStructure :=
  {| helices := helices s;
     strands := filter (fun entry : Z * Strand => is_scaffold entry \/ entry.1 ∈ retain)
                  (strands s) |}.

(** Modelled from the spec: the BaseSlot of section 3 (the design record's
    module is absent): the lattice position and its insertion/deletion
    count, negative for a deleted slot, positive for inserted bases. *)
Record BaseSlot := {
  slot_helix : Z;
  slot_offset : Z;
  slot_indel : Z
}.

Definition is_deleted (slot : BaseSlot) : bool := slot_indel slot <? 0.

(** Modelled from the spec: base expansion of the Structure Builder
    ([CadnanoConvertDesign.create_structure], absent), sections 3 and 4.1.
    A deleted slot yields no Base in either mode; any other slot yields
    [1 + indel] Bases when [modify] is set, and exactly one Base, at the
    slot's own helix and offset, in the simplified mode. *)
Definition expand_slot (modify : bool) (slot : BaseSlot) : list Base :=
  if is_deleted slot then []
  else
    replicate (if modify then S (Z.to_nat (slot_indel slot)) else 1%nat)
      {| base_helix := slot_helix slot;
         base_offset := slot_offset slot;
         base_letter := None |}.

(** Modelled from the spec: the Bases of a track of slots, in slot order. *)
Definition expand_slots (modify : bool) (slots : list BaseSlot) : list Base :=
  flat_map (expand_slot modify) slots.

(** ** Collaborators of the converter

    The readers, the structure builder, the sequence assigner, the writers
    and the table of named sequences live in modules that the converter
    imports; the converter is verified against any implementation of them.
    Readers and writers are functions of the file name: the file system is
    fixed during a session.  The readers, the builder and the writers may
    raise; the assigner from a table, the named assignment of a known
    sequence and the maximal staple set always return (section 7 of the
    design lists no failure for them). *)

Inductive Format := TopologyJson | StructureJson | Cando | CadnanoJson.

Class Collaborators := {
  CadnanoDesign : Type;
  SequenceTable : Type;
  DnaParameters : Type;
  (** [DnaParameters()] *)
  new_DnaParameters : DnaParameters;
  (** [CadnanoReader.read_json], [CadnanoReader.read_csv] *)
  read_json : string -> Outcome CadnanoDesign;
  read_csv : string -> Outcome SequenceTable;
  (** [CadnanoConvertDesign(parameters).create_structure(design, modify)] *)
  create_structure : DnaParameters -> CadnanoDesign -> bool -> Outcome DnaStructure;
  (** [CadnanoConvertDesign.set_sequence(structure, modified, table)] *)
  set_sequence : DnaStructure -> bool -> SequenceTable -> DnaStructure;
  (** the table [dna_sequence_data] of named sequences *)
  dna_sequence_data : gmap string string;
  (** the assignment of a scaffold sequence taken from the table *)
  assign_scaffold_sequence : DnaStructure -> bool -> string -> DnaStructure;
  (** [DnaStructure.generate_maximal_staple_set(retain)] *)
  generate_maximal_staple_set : DnaStructure -> gset Z -> DnaStructure;
  (** the four writers *)
  write_file : Format -> option DnaStructure -> string -> Outcome unit
}.

Section Converter.
Context `{Collaborators}.

(** Modelled from the spec: [CadnanoConvertDesign.set_sequence_from_name]
    (absent), section 4.2 and section 7: the name resolves through the
    table of named sequences; an absent name fails with
    [UnknownSequenceName] and leaves the model in its pre-call state. *)
Definition set_sequence_from_name (s : DnaStructure) (modified_structure : bool)
    (seq_name : string) : Outcome DnaStructure :=
  match dna_sequence_data !! seq_name with
  | Some sequence => Ok (assign_scaffold_sequence s modified_structure sequence)
  | None => Raise (UnknownSequenceName seq_name)
  end.

(** *** The converter object and the call log

    The [CadnanoConvertDesign] object held by the converter is represented
    by the parameters it was made with. *)

Record Converter := {
  cadnano_design : option CadnanoDesign;
  dna_structure : option DnaStructure;
  cadnano_convert_design : option DnaParameters;
  infile : option string;
  informat : option string;
  outfile : option string;
  modify : bool;
  dna_parameters : DnaParameters
}.

Inductive Call :=
| CallReadJson (file_name : string)
| CallCreateStructure (design : CadnanoDesign) (modify : bool)
| CallReadCsv (file_name : string)
| CallSetSequence (modified_structure : bool) (sequence : SequenceTable)
| CallSetSequenceFromName (modified_structure : bool) (seq_name : string)
| CallLoggerError (message : string)
| CallGetStaplesByColor (colors : list Z)
| CallRemoveStaples (retain : gset Z)
| CallGenerateMaximalStapleSet (retain : gset Z)
| CallWrite (format : Format) (file_name : string).

Inductive Event :=
| Returned (c : Call)
| Raised (c : Call) (e : Exn).

(** [logging_disabled_info] records [logging.disable(logging.INFO)]; it
    does not silence [logger.error]. *)
Record World := {
  self : Converter;
  calls : list Event;
  logging_disabled_info : bool
}.

(** *** State and exception monad *)

Definition M (R : Type) : Type := World -> Outcome R * World.

#[export] Instance M_ret : MRet M := fun R (r : R) w => (Ok r, w).

#[export] Instance M_bind : MBind M := fun R R' (k : R -> M R') (m : M R) w =>
  match m w with
  | (Ok r, w') => k r w'
  | (Raise e, w') => (Raise e, w')
  end.

Definition raise {R} (e : Exn) : M R := fun w => (Raise e, w).

Definition gets {R} (field : Converter -> R) : M R := fun w => (Ok (field (self w)), w).

Definition update (f : Converter -> Converter) : M unit := fun w =>
  (Ok tt, {| self := f (self w); calls := calls w;
             logging_disabled_info := logging_disabled_info w |}).

Definition emit (e : Event) : M unit := fun w =>
  (Ok tt, {| self := self w; calls := calls w ++ [e];
             logging_disabled_info := logging_disabled_info w |}).

(** A call to a collaborator: it is logged with the way it ended, and its
    exception, if any, propagates. *)
Definition invoke {R} (c : Call) (result : Outcome R) : M R :=
  match result with
  | Ok r => emit (Returned c);; mret r
  | Raise e => emit (Raised c e);; raise e
  end.

Definition set_cadnano_design (d : CadnanoDesign) (c : Converter) : Converter :=
  {| cadnano_design := Some d; dna_structure := dna_structure c;
     cadnano_convert_design := cadnano_convert_design c;
     infile := infile c; informat := informat c; outfile := outfile c;
     modify := modify c; dna_parameters := dna_parameters c |}.

Definition set_cadnano_convert_design (p : DnaParameters) (c : Converter) : Converter :=
  {| cadnano_design := cadnano_design c; dna_structure := dna_structure c;
     cadnano_convert_design := Some p;
     infile := infile c; informat := informat c; outfile := outfile c;
     modify := modify c; dna_parameters := dna_parameters c |}.

Definition set_dna_structure (s : DnaStructure) (c : Converter) : Converter :=
  {| cadnano_design := cadnano_design c; dna_structure := Some s;
     cadnano_convert_design := cadnano_convert_design c;
     infile := infile c; informat := informat c; outfile := outfile c;
     modify := modify c; dna_parameters := dna_parameters c |}.

(** [self.dna_structure.<attr>]: attribute access on [None] raises. *)
Definition dna_structure_attr (attr : string) : M DnaStructure :=
  o ← gets dna_structure;
  match o with
  | Some s => mret s
  | None => raise (AttributeError attr)
  end.

(** Reading a local variable. *)
Definition load_local {R} (var : string) (value : option R) : M R :=
  match value with
  | Some v => mret v
  | None => raise (UnboundLocalError var)
  end.

(** Truth value of a [str]. *)
Definition truthy (s : string) : bool := negb (String.eqb s "").

(** *** [Converter.__init__(self, modify=False, logg=True)]

    An omitted keyword argument is [None] and takes its default. *)
Definition Converter_init (modify_arg logg_arg : option bool) : World :=
  let modify := default false modify_arg in
  let logg := default true logg_arg in
  {| self := {| cadnano_design := None; dna_structure := None;
                cadnano_convert_design := None;
                infile := None; informat := None; outfile := None;
                modify := modify; dna_parameters := new_DnaParameters |};
     calls := [];
     logging_disabled_info := negb logg |}.

(** *** [Converter.read_cadnano_file(self, file_name, seq_file_name, seq_name)] *)

Definition unrecognized_message (seq_name : string) : string :=
  "The sequence name " +:+ seq_name +:+ " is not recognized.".

Definition read_cadnano_file (file_name seq_file_name seq_name : string) : M unit :=
  design ← invoke (CallReadJson file_name) (read_json file_name);
  update (set_cadnano_design design);;
  parameters ← gets dna_parameters;
  update (set_cadnano_convert_design parameters);;
  modify_flag ← gets modify;
  built ← invoke (CallCreateStructure design modify_flag)
            (create_structure parameters design modify_flag);
  update (set_dna_structure built);;
  (* Read in staple sequences from a CSV format file. *)
  (if truthy seq_file_name then
     let file_extension := (PyStr.splitext seq_file_name).2 in
     if String.eqb file_extension ".csv" then
       let modified_structure := false in
       sequence ← invoke (CallReadCsv seq_file_name) (read_csv seq_file_name);
       s ← dna_structure_attr "set_sequence";
       s' ← invoke (CallSetSequence modified_structure sequence)
              (Ok (set_sequence s modified_structure sequence));
       update (set_dna_structure s')
     else mret tt
   else mret tt);;
  (* Assign a sequence using a name. *)
  if truthy seq_name then
    (if bool_decide (dna_sequence_data !! seq_name = None) then
       invoke (CallLoggerError (unrecognized_message seq_name)) (Ok tt)
     else mret tt);;
    let modified_structure := false in
    s ← dna_structure_attr "set_sequence_from_name";
    s' ← invoke (CallSetSequenceFromName modified_structure seq_name)
           (set_sequence_from_name s modified_structure seq_name);
    update (set_dna_structure s')
  else mret tt.

(** *** The writers *)

Definition write_topology_file (file_name : string) : M unit :=
  s ← dna_structure_attr "write_topology";
  invoke (CallWrite TopologyJson file_name) (write_file TopologyJson (Some s) file_name).

Definition write_structure_file (file_name : string) : M unit :=
  s ← dna_structure_attr "write";
  invoke (CallWrite StructureJson file_name) (write_file StructureJson (Some s) file_name).

Definition write_cando_file (file_name : string) : M unit :=
  o ← gets dna_structure;
  invoke (CallWrite Cando file_name) (write_file Cando o file_name).

Definition write_cadnano_file (file_name : string) : M unit :=
  o ← gets dna_structure;
  invoke (CallWrite CadnanoJson file_name) (write_file CadnanoJson o file_name).

(** *** [Converter.perform_staple_operations(self, staples_arg)] *)

(** [[int(color) for color in tokens if color != '']]: the first literal
    that [int] rejects raises [ValueError]. *)
Fixpoint int_colors (tokens : list string) : Outcome (list Z) :=
  match tokens with
  | [] => Ok []
  | color :: rest =>
      if String.eqb color "" then int_colors rest
      else match PyStr.int color with
           | None => Raise (ValueError color)
           | Some n =>
               match int_colors rest with
               | Ok ns => Ok (n :: ns)
               | Raise e => Raise e
               end
           end
  end.

Definition lift {R} (o : Outcome R) : M R :=
  match o with Ok r => mret r | Raise e => raise e end.

(** The block under [if len(tokens) == 2]; it returns the new value of
    [retain_staples]. *)
Definition parse_retained (clause : string) : M (gset Z) :=
  let retain_tokens := PyStr.re_split_nonword clause in
  retain_colors ←
    (if String.eqb (nth 0 retain_tokens "") "retain"
     then colors ← lift (int_colors (tail retain_tokens)); mret (Some colors)
     else mret None);
  s ← dna_structure_attr "get_staples_by_color";
  colors ← load_local "retain_colors" retain_colors;
  invoke (CallGetStaplesByColor colors) (Ok (get_staples_by_color s colors)).

Definition perform_staple_operations (staples_arg : string) : M unit :=
  let tokens := PyStr.split1 ","%char staples_arg in
  let operation := nth 0 tokens "" in
  retain_staples ←
    (if (length tokens =? 2)%nat then parse_retained (nth 1 tokens "")
     else mret ∅);
  (* Remove all staple strands except those given in retain_staples. *)
  if String.eqb operation "delete" then
    s ← dna_structure_attr "remove_staples";
    s' ← invoke (CallRemoveStaples retain_staples) (Ok (remove_staples s retain_staples));
    update (set_dna_structure s')
  (* Generate the maximal staple strand set except those given in
     retain_staples. *)
  else if String.eqb operation "maximal_set" then
    s ← dna_structure_attr "generate_maximal_staple_set";
    s' ← invoke (CallGenerateMaximalStapleSet retain_staples)
           (Ok (generate_maximal_staple_set s retain_staples));
    update (set_dna_structure s')
  else mret tt.

End Converter.

(** ** Well-formed staple directives, call-log predicates, sessions *)

Section Protocol.
Context `{Collaborators}.

(** The colours named by the tokens of [staples_arg.split(",", 1)]: none
    without a clause; with a clause, the word [retain] followed by integer
    literals separated by non-word characters. *)
Inductive retain_clause : list string -> list Z -> Prop :=
| retain_none (operation : string) :
    retain_clause [operation] []
| retain_some (operation clause : string) (literals : list string) (colors : list Z) :
    PyStr.re_split_nonword clause = "retain" :: literals ->
    int_colors literals = Ok colors ->
    retain_clause [operation; clause] colors.

(** The query made while parsing: one [get_staples_by_color] call when
    there is a clause, none otherwise. *)
Definition staple_queries (tokens : list string) (colors : list Z) : list Event :=
  match tokens with
  | [_; _] => [Returned (CallGetStaplesByColor colors)]
  | _ => []
  end.

Definition call_of (ev : Event) : Call :=
  match ev with Returned c | Raised c _ => c end.

(** A [create_structure] call that returned. *)
Definition is_build (ev : Event) : bool :=
  match ev with
  | Returned (CallCreateStructure _ _) => true
  | _ => false
  end.

(** Calls of the Sequence Assigner. *)
Definition is_assignment (c : Call) : bool :=
  match c with
  | CallSetSequence _ _ | CallSetSequenceFromName _ _ => true
  | _ => false
  end.

(** The calls of the CSV path: reading the table and assigning from it. *)
Definition is_table_call (c : Call) : bool :=
  match c with
  | CallReadCsv _ | CallSetSequence _ _ => true
  | _ => false
  end.

(** Calls of the Staple Set Operations. *)
Definition is_staple_operation (c : Call) : bool :=
  match c with
  | CallGetStaplesByColor _ | CallRemoveStaples _ | CallGenerateMaximalStapleSet _ => true
  | _ => false
  end.

(** The two calls that change the staple set. *)
Definition is_staple_mutation (c : Call) : bool :=
  match c with
  | CallRemoveStaples _ | CallGenerateMaximalStapleSet _ => true
  | _ => false
  end.

(** The mode handed to the Sequence Assigner, and the mode handed to the
    Structure Builder, by a call. *)
Definition assignment_mode (c : Call) : option bool :=
  match c with
  | CallSetSequence m _ | CallSetSequenceFromName m _ => Some m
  | _ => None
  end.

Definition build_mode (c : Call) : option bool :=
  match c with
  | CallCreateStructure _ m => Some m
  | _ => None
  end.

(** Scanning a chronological log: every assigner or staple call comes
    after a [create_structure] call that returned ([built] tells whether
    one returned before the log starts). *)
Fixpoint built_before_use (built : bool) (log : list Event) : bool :=
  match log with
  | [] => true
  | ev :: rest =>
      (built || negb (is_assignment (call_of ev) || is_staple_operation (call_of ev)))
      && built_before_use (built || is_build ev) rest
  end.

Definition has_structure (w : World) : bool :=
  match dna_structure (self w) with Some _ => true | None => false end.

(** A session: any sequence of method calls on one converter; a caller
    may go on after a method raised. *)
Inductive Method :=
| ReadCadnanoFile (file_name seq_file_name seq_name : string)
| PerformStapleOperations (staples_arg : string)
| WriteTopologyFile (file_name : string)
| WriteStructureFile (file_name : string)
| WriteCandoFile (file_name : string)
| WriteCadnanoFile (file_name : string).

Definition run_method (m : Method) : M unit :=
  match m with
  | ReadCadnanoFile file_name seq_file_name seq_name =>
      read_cadnano_file file_name seq_file_name seq_name
  | PerformStapleOperations staples_arg => perform_staple_operations staples_arg
  | WriteTopologyFile file_name => write_topology_file file_name
  | WriteStructureFile file_name => write_structure_file file_name
  | WriteCandoFile file_name => write_cando_file file_name
  | WriteCadnanoFile file_name => write_cadnano_file file_name
  end.

Fixpoint run_session (ms : list Method) (w : World) : World :=
  match ms with
  | [] => w
  | m :: rest => run_session rest (run_method m w).2
  end.

(** The invariant of a session: the log so far is in order, and a
    converter that holds a structure has a returned [create_structure]
    call in its log. *)
Definition session_invariant (w : World) : Prop :=
  built_before_use false (calls w) = true /\
  (has_structure w = true -> existsb is_build (calls w) = true).

End Protocol.

(** ** A small concrete set of collaborators, for running the converter *)

Module Demo.

Definition design : list BaseSlot :=
  [ {| slot_helix := 0; slot_offset := 0; slot_indel := 0 |};
    {| slot_helix := 0; slot_offset := 1; slot_indel := 2 |};
    {| slot_helix := 0; slot_offset := 2; slot_indel := 0 |};
    {| slot_helix := 0; slot_offset := 3; slot_indel := -1 |};
    {| slot_helix := 1; slot_offset := 0; slot_indel := 0 |} ].

(** One scaffold and three staples coloured 5, 5 and 7. *)
Definition build (modify : bool) (d : list BaseSlot) : DnaStructure :=
  {| helices := [0; 1];
     strands :=
       <[0 := {| strand_role := Scaffold; strand_color := 0;
                 strand_bases := expand_slots modify d |}]>
       (<[1 := {| strand_role := Staple; strand_color := 5; strand_bases := [] |}]>
       (<[2 := {| strand_role := Staple; strand_color := 5; strand_bases := [] |}]>
       (<[3 := {| strand_role := Staple; strand_color := 7; strand_bases := [] |}]> ∅))) |}.

Definition collaborators : Collaborators :=
  {| CadnanoDesign := list BaseSlot;
     SequenceTable := list (Z * Z * Nucleotide);
     DnaParameters := unit;
     new_DnaParameters := tt;
     read_json := fun file_name =>
       if String.eqb file_name "design.json" then Ok design
       else Raise (IOError file_name);
     read_csv := fun file_name =>
       if String.eqb file_name "staples.csv" then Ok [(0, 0, dA)]
       else Raise (IOError file_name);
     create_structure := fun _ d modify => Ok (build modify d);
     set_sequence := fun s _ _ => s;
     dna_sequence_data := {[ "M13mp18" := "AATGCTACTACTATTAGTAGAATTGATGCC" ]};
     assign_scaffold_sequence := fun s _ _ => s;
     generate_maximal_staple_set := fun s _ => s;
     write_file := fun _ _ _ => Ok tt |}.

(** [Converter()] and [Converter(modify=True)] *)
Definition fresh : @World collaborators := @Converter_init collaborators None None.
Definition fresh_modify : @World collaborators :=
  @Converter_init collaborators (Some true) None.

(** The converter after [read_cadnano_file("design.json", "", "")]. *)
Definition loaded : @World collaborators :=
  (@read_cadnano_file collaborators "design.json" "" "" fresh).2.

End Demo.

(** ** [Converter.set_module_loggers(self, names)]

    The method touches the process-wide logger registry only; it is
    represented by the [getLogger(module).setLevel(level)] calls it makes,
    in order. *)

(** [s.split(sep)] for a one-character separator: every separator splits. *)
Fixpoint PyStr_split (sep : ascii) (s : string) : list string :=
  match s with
  | EmptyString => [EmptyString]
  | String c rest =>
      if Ascii.eqb c sep then EmptyString :: PyStr_split sep rest
      else match PyStr_split sep rest with
           | piece :: pieces => String c piece :: pieces
           | [] => [String c EmptyString]
           end
  end.

(** [sep.join(pieces)] *)
Fixpoint PyStr_join (sep : ascii) (pieces : list string) : string :=
  match pieces with
  | [] => EmptyString
  | [piece] => piece
  | piece :: rest => piece +:+ String sep (PyStr_join sep rest)
  end.

(** [logging.DEBUG] *)
Definition DEBUG : Z := 10.

Definition set_module_loggers (names : string) : list (string * Z) :=
  let module_names := PyStr_split ","%char names in
  map (fun module => (module, DEBUG)) module_names.

(** ** Predicates on strings used by the properties *)

Fixpoint all_word (s : string) : bool :=
  match s with
  | EmptyString => true
  | String c rest => PyStr.is_word c && all_word rest
  end.

Fixpoint count_char (c : ascii) (s : string) : nat :=
  match s with
  | EmptyString => 0%nat
  | String x rest => ((if Ascii.eqb x c then 1 else 0) + count_char c rest)%nat
  end.

(** ** Concrete collaborators whose builder rejects the empty design *)

Module DemoStrict.

Definition collaborators : Collaborators :=
  {| CadnanoDesign := list BaseSlot;
     SequenceTable := list (Z * Z * Nucleotide);
     DnaParameters := unit;
     new_DnaParameters := tt;
     read_json := fun file_name =>
       if String.eqb file_name "design.json" then Ok Demo.design
       else if String.eqb file_name "empty.json" then Ok []
       else Raise (IOError file_name);
     read_csv := fun file_name =>
       if String.eqb file_name "staples.csv" then Ok [(0, 0, dA)]
       else Raise (IOError file_name);
     create_structure := fun _ d modify =>
       match d with
       | [] => Raise MalformedConnectivity
       | _ => Ok (Demo.build modify d)
       end;
     set_sequence := fun s _ _ => s;
     dna_sequence_data := {[ "M13mp18" := "AATGCTACTACTATTAGTAGAATTGATGCC" ]};
     assign_scaffold_sequence := fun s _ _ => s;
     generate_maximal_staple_set := fun s _ => s;
     write_file := fun _ _ _ => Ok tt |}.

Definition fresh : @World collaborators := @Converter_init collaborators None None.

(** The converter after [read_cadnano_file("design.json", "", "")]. *)
Definition loaded : @World collaborators :=
  (@read_cadnano_file collaborators "design.json" "" "" fresh).2.

End DemoStrict.

(** * Properties *)

(** ** The staple operations of the structure model *)

Lemma get_staples_by_color_elem (s : DnaStructure) (colors : list Z) (k : Z) :
  k ∈ get_staples_by_color s colors <->
  exists strand, strands s !! k = Some strand /\ strand_role strand = Staple
                 /\ strand_color strand ∈ colors.
Proof.
  unfold get_staples_by_color. rewrite elem_of_dom. unfold is_Some.
  setoid_rewrite map_lookup_filter_Some. unfold is_staple. simpl.
  split; intros (strand & Hk); exists strand; tauto.
Qed.

Lemma get_staples_by_color_nil (s : DnaStructure) : get_staples_by_color s [] = ∅.
Proof.
  apply set_eq. intros k. rewrite get_staples_by_color_elem.
  split; [intros (strand & _ & _ & Hin); inversion Hin | set_solver].
Qed.

Lemma staple_set_elem (s : DnaStructure) (k : Z) :
  k ∈ staple_set s <->
  exists strand, strands s !! k = Some strand /\ strand_role strand = Staple.
Proof.
  unfold staple_set, staple_strands. rewrite elem_of_dom. unfold is_Some.
  setoid_rewrite map_lookup_filter_Some. unfold is_staple. simpl. reflexivity.
Qed.

Lemma remove_staples_lookup (s : DnaStructure) (retain : gset Z) (k : Z) (strand : Strand) :
  strands (remove_staples s retain) !! k = Some strand <->
  strands s !! k = Some strand /\ (strand_role strand = Scaffold \/ k ∈ retain).
Proof.
  unfold remove_staples. simpl. rewrite map_lookup_filter_Some.
  unfold is_scaffold. simpl. tauto.
Qed.

Lemma remove_staples_staple_set (s : DnaStructure) (retain : gset Z) :
  staple_set (remove_staples s retain) = retain ∩ staple_set s.
Proof.
  apply set_eq. intros k. rewrite elem_of_intersection, !staple_set_elem.
  setoid_rewrite remove_staples_lookup. split.
  - intros (strand & [Hk [Hrole | Hin]] & Hstaple); [congruence | eauto].
  - intros (Hin & strand & Hk & Hstaple). eauto 6.
Qed.

Lemma remove_staples_scaffold_strands (s : DnaStructure) (retain : gset Z) :
  scaffold_strands (remove_staples s retain) = scaffold_strands s.
Proof.
  apply map_eq. intros k. apply option_eq. intros strand.
  unfold scaffold_strands. rewrite !map_lookup_filter_Some, remove_staples_lookup.
  unfold is_scaffold. simpl. tauto.
Qed.

Lemma remove_staples_empty (s : DnaStructure) :
  staple_set (remove_staples s ∅) = ∅.
Proof. rewrite remove_staples_staple_set. apply intersection_empty_l_L. Qed.

Lemma get_staples_by_color_subset (s : DnaStructure) (colors : list Z) :
  get_staples_by_color s colors ⊆ staple_set s.
Proof.
  intros k. rewrite get_staples_by_color_elem, staple_set_elem.
  intros (strand & Hk & Hrole & _). eauto.
Qed.

(** The result depends on the colours as a set only. *)
Lemma get_staples_by_color_ext (s : DnaStructure) (colors colors' : list Z) :
  (forall c, c ∈ colors <-> c ∈ colors') ->
  get_staples_by_color s colors = get_staples_by_color s colors'.
Proof.
  intros Hsame. apply set_eq. intros k. rewrite !get_staples_by_color_elem.
  split; intros (strand & Hk & Hrole & Hin); exists strand; rewrite Hsame in *; auto.
Qed.

(** Removing staples twice with one retain set is removing them once. *)
Lemma remove_staples_idempotent (s : DnaStructure) (retain : gset Z) :
  remove_staples (remove_staples s retain) retain = remove_staples s retain.
Proof.
  unfold remove_staples. simpl. f_equal.
  apply map_eq. intros k. apply option_eq. intros strand.
  rewrite !map_lookup_filter_Some. tauto.
Qed.

(** ** Python string primitives *)

Lemma partition_spec (sep : ascii) (s before after : string) :
  PyStr.partition sep s = Some (before, after) ->
  s = before +:+ String sep after.
Proof.
  revert before after. induction s as [| c rest IH]; intros before after; simpl.
  - discriminate.
  - destruct (Ascii.eqb_spec c sep) as [-> | Hne].
    + intros [= <- <-]. reflexivity.
    + destruct (PyStr.partition sep rest) as [[b a] |]; [| discriminate].
      intros [= <- <-]. rewrite (IH b a eq_refl) at 1. reflexivity.
Qed.

Lemma split1_shape (sep : ascii) (s : string) :
  PyStr.split1 sep s = [s] \/
  exists before after, PyStr.split1 sep s = [before; after]
                       /\ s = before +:+ String sep after.
Proof.
  unfold PyStr.split1. destruct (PyStr.partition sep s) as [[b a] |] eqn:E.
  - right. exists b, a. split; [reflexivity | apply partition_spec, E].
  - left. reflexivity.
Qed.

Lemma re_split_nonword_nonempty (s : string) : PyStr.re_split_nonword s <> [].
Proof.
  destruct s as [| c rest]; simpl; [discriminate |].
  destruct (PyStr.is_word c); [| discriminate].
  destruct (PyStr.re_split_nonword rest); discriminate.
Qed.

(** ** [perform_staple_operations] *)

Section StapleOperations.
Context `{Collaborators}.

Ltac run_staples :=
  unfold perform_staple_operations, parse_retained, dna_structure_attr,
    load_local, lift, invoke, emit, update, gets, raise,
    mbind, M_bind, mret, M_ret.

(** C8: with a comma in [staples_arg] and a clause whose first token is
    not the word [retain], [perform_staple_operations] raises and changes
    nothing: on a converter holding a structure the exception is the
    [NameError] for the unassigned local [retain_colors], and
    [get_staples_by_color] is never entered. *)
Theorem perform_staple_operations_unbound_retain_colors
    (w : World) (staples_arg operation clause : string) :
  PyStr.split1 ","%char staples_arg = [operation; clause] ->
  nth 0 (PyStr.re_split_nonword clause) "" <> "retain" ->
  let result := perform_staple_operations staples_arg w in
  result.2 = w /\
  (exists e, result.1 = Raise e) /\
  (forall s, dna_structure (self w) = Some s ->
     result.1 = Raise (UnboundLocalError "retain_colors")
     /\ is_NameError (UnboundLocalError "retain_colors") = true).
Proof.
  intros Htokens Hword. apply String.eqb_neq in Hword.
  run_staples. rewrite Htokens. simpl. rewrite Hword. simpl.
  destruct (dna_structure (self w)) as [s |] eqn:Hs; simpl.
  - split; [reflexivity | split; [eexists; reflexivity |]].
    intros s' _. split; reflexivity.
  - split; [reflexivity | split; [eexists; reflexivity | discriminate]].
Qed.

(** C7: [staples_arg] being [delete] without a retain clause, on a
    converter that holds a structure [perform_staple_operations] calls
    [remove_staples] with an empty retain set (and makes no other call);
    afterwards the model has no staple strand and its scaffold strands are
    the ones it had. *)
Theorem perform_staple_operations_delete_all
    (w : World) (s : DnaStructure) (staples_arg : string) :
  PyStr.split1 ","%char staples_arg = ["delete"] ->
  dna_structure (self w) = Some s ->
  let result := perform_staple_operations staples_arg w in
  result.1 = Ok tt /\
  calls result.2 = calls w ++ [Returned (CallRemoveStaples ∅)] /\
  dna_structure (self result.2) = Some (remove_staples s ∅) /\
  staple_set (remove_staples s ∅) = ∅ /\
  scaffold_strands (remove_staples s ∅) = scaffold_strands s.
Proof.
  intros Htokens Hs. run_staples. rewrite Htokens. simpl. rewrite Hs. simpl.
  repeat split.
  - apply remove_staples_empty.
  - apply remove_staples_scaffold_strands.
Qed.

(** C10: when the first comma-separated token is neither [delete] nor
    [maximal_set], [perform_staple_operations] leaves the converter, and
    so the model and its strands, as they were, and whatever it calls is
    not [remove_staples] or [generate_maximal_staple_set]: it calls
    nothing, or [get_staples_by_color] once. *)
Theorem perform_staple_operations_other_operation
    (w : World) (staples_arg : string) :
  nth 0 (PyStr.split1 ","%char staples_arg) "" <> "delete" ->
  nth 0 (PyStr.split1 ","%char staples_arg) "" <> "maximal_set" ->
  let result := perform_staple_operations staples_arg w in
  self result.2 = self w /\
  exists made,
    calls result.2 = calls w ++ made /\
    Forall (fun ev => is_staple_mutation (call_of ev) = false) made /\
    (made = [] \/ exists colors, made = [Returned (CallGetStaplesByColor colors)]).
Proof.
  intros Hdelete Hmaximal.
  apply String.eqb_neq in Hdelete. apply String.eqb_neq in Hmaximal.
  run_staples. rewrite Hdelete, Hmaximal.
  destruct (split1_shape ","%char staples_arg) as [-> | (op & clause & -> & _)]; simpl.
  - split; [reflexivity |]. exists []. rewrite app_nil_r. auto.
  - destruct (String.eqb _ "retain"); simpl.
    + destruct (int_colors _) as [colors | e]; simpl.
      * destruct (dna_structure (self w)) as [s |]; simpl.
        -- split; [reflexivity |]. exists [Returned (CallGetStaplesByColor colors)].
           split; [reflexivity |]. split; [repeat constructor | eauto].
        -- split; [reflexivity |]. exists []. rewrite app_nil_r. auto.
      * split; [reflexivity |]. exists []. rewrite app_nil_r. auto.
    + destruct (dna_structure (self w)) as [s |]; simpl;
        (split; [reflexivity |]; exists []; rewrite app_nil_r; auto).
Qed.

(** C3, as amended: the first token being [delete] and the retain clause,
    if any, being the word [retain] followed by integer literals, on a
    converter that holds a structure [perform_staple_operations] calls
    [remove_staples] with the staples that [get_staples_by_color] gives
    for the parsed colours; afterwards the staple set of the model is the
    retain set intersected with the original staple set, and the scaffold
    strands are the ones it had. *)
Theorem perform_staple_operations_delete_retains
    (w : World) (s : DnaStructure) (staples_arg : string)
    (tokens : list string) (colors : list Z) :
  PyStr.split1 ","%char staples_arg = tokens ->
  nth 0 tokens "" = "delete" ->
  retain_clause tokens colors ->
  dna_structure (self w) = Some s ->
  let retain := get_staples_by_color s colors in
  let result := perform_staple_operations staples_arg w in
  result.1 = Ok tt /\
  calls result.2 =
    calls w ++ staple_queries tokens colors ++ [Returned (CallRemoveStaples retain)] /\
  dna_structure (self result.2) = Some (remove_staples s retain) /\
  staple_set (remove_staples s retain) = retain ∩ staple_set s /\
  scaffold_strands (remove_staples s retain) = scaffold_strands s.
Proof.
  intros Htokens Hop Hclause Hs. run_staples. rewrite Htokens.
  destruct Hclause as [operation | operation clause literals colors Hretain Hints];
    simpl in Hop; subst operation; simpl.
  - rewrite Hs, get_staples_by_color_nil. simpl. repeat split.
    + apply remove_staples_staple_set.
    + apply remove_staples_scaffold_strands.
  - rewrite Hretain. simpl. rewrite Hints. simpl. rewrite Hs. simpl.
    rewrite Hs. simpl. rewrite <- app_assoc. simpl. repeat split.
    + apply remove_staples_staple_set.
    + apply remove_staples_scaffold_strands.
Qed.

(** C4, as amended: the first token being [maximal_set] and the retain
    clause, if any, being the word [retain] followed by integer literals,
    on a converter that holds a structure [perform_staple_operations]
    calls [generate_maximal_staple_set], and not [remove_staples], with
    the staples that [get_staples_by_color] gives for the parsed colours;
    the model becomes what that call makes of it. *)
Theorem perform_staple_operations_maximal_set_regenerates
    (w : World) (s : DnaStructure) (staples_arg : string)
    (tokens : list string) (colors : list Z) :
  PyStr.split1 ","%char staples_arg = tokens ->
  nth 0 tokens "" = "maximal_set" ->
  retain_clause tokens colors ->
  dna_structure (self w) = Some s ->
  let retain := get_staples_by_color s colors in
  let result := perform_staple_operations staples_arg w in
  result.1 = Ok tt /\
  calls result.2 =
    calls w ++ staple_queries tokens colors
      ++ [Returned (CallGenerateMaximalStapleSet retain)] /\
  dna_structure (self result.2) = Some (generate_maximal_staple_set s retain).
Proof.
  intros Htokens Hop Hclause Hs. run_staples. rewrite Htokens.
  destruct Hclause as [operation | operation clause literals colors Hretain Hints];
    simpl in Hop; subst operation; simpl.
  - rewrite Hs, get_staples_by_color_nil. simpl. repeat split.
  - rewrite Hretain. simpl. rewrite Hints. simpl. rewrite Hs. simpl.
    rewrite Hs. simpl. rewrite <- app_assoc. simpl. repeat split.
Qed.

End StapleOperations.

(** ** [read_cadnano_file] *)

Section ReadCadnanoFile.
Context `{Collaborators}.

Ltac run_read :=
  unfold read_cadnano_file, set_sequence_from_name, dna_structure_attr,
    invoke, emit, update, gets, raise, mbind, M_bind, mret, M_ret.

Ltac split_paths :=
  repeat match goal with
    | |- context [match ?x with _ => _ end] =>
        lazymatch x with
        | context [match _ with _ => _ end] => fail
        | _ => destruct x eqn:?; simpl
        end
    end.

Ltac close_log :=
  rewrite <- ?app_assoc; simpl; eexists; split; [reflexivity |].

Ltac check_log :=
  repeat match goal with
    | |- _ /\ _ => split
    | |- Forall _ _ => repeat constructor; simpl; congruence
    | |- built_before_use _ _ = true => reflexivity
    | |- _ \/ _ => first [left; reflexivity | right; reflexivity]
    end.

(** What one call adds to the log, on every path through the method. *)
Lemma read_cadnano_file_log (w : World) (file_name seq_file_name seq_name : string) :
  let result := read_cadnano_file file_name seq_file_name seq_name w in
  exists made,
    calls result.2 = calls w ++ made /\
    Forall (fun ev => forall m, assignment_mode (call_of ev) = Some m -> m = false) made /\
    Forall (fun ev => forall m, build_mode (call_of ev) = Some m -> m = modify (self w)) made /\
    built_before_use false made = true /\
    (dna_structure (self result.2) = dna_structure (self w)
     \/ existsb is_build made = true).
Proof.
  run_read. simpl. split_paths; close_log; check_log.
Qed.

(** C9: a non-empty [seq_file_name] whose extension is not [.csv] is
    ignored: the call behaves, in result, converter and log, as the call
    with no sequence file; it neither reads a table nor assigns from one;
    and when no sequence name is given and the design is read and built,
    it returns normally having made those two calls only. *)
Theorem read_cadnano_file_ignores_other_extension
    (w : World) (file_name seq_file_name seq_name : string) :
  seq_file_name <> "" ->
  (PyStr.splitext seq_file_name).2 <> ".csv" ->
  let result := read_cadnano_file file_name seq_file_name seq_name w in
  result = read_cadnano_file file_name "" seq_name w /\
  (exists made,
     calls result.2 = calls w ++ made /\
     Forall (fun ev => is_table_call (call_of ev) = false) made) /\
  (forall design built,
     read_json file_name = Ok design ->
     create_structure (dna_parameters (self w)) design (modify (self w)) = Ok built ->
     seq_name = "" ->
     result.1 = Ok tt /\
     dna_structure (self result.2) = Some built /\
     calls result.2 =
       calls w ++ [Returned (CallReadJson file_name);
                   Returned (CallCreateStructure design (modify (self w)))]).
Proof.
  intros Hname Hext. apply String.eqb_neq in Hext. simpl. split; [| split].
  - unfold read_cadnano_file. rewrite Hext. simpl (truthy "").
    destruct (truthy seq_file_name); reflexivity.
  - run_read. rewrite Hext. simpl. split_paths; close_log; check_log.
  - intros design built Hread Hbuild ->. run_read. rewrite Hext, Hread. simpl.
    rewrite Hbuild. simpl. destruct (truthy seq_file_name); simpl.
    all: rewrite <- ?app_assoc; repeat split.
Qed.

(** C1: when the call reaches the assignment by name (the same call
    without a sequence name returns normally, in state [before]) and the
    name is not a key of [dna_sequence_data], [read_cadnano_file] reports
    the name to the logger and calls [set_sequence_from_name], which
    fails with [UnknownSequenceName]; the exception leaves the method and
    the converter, and with it the model, is as it was before that call.
    The failure also holds for every model the assigner may be given. *)
Theorem read_cadnano_file_unknown_sequence_name
    (w before : World) (file_name seq_file_name seq_name : string) :
  seq_name <> "" ->
  dna_sequence_data !! seq_name = None ->
  read_cadnano_file file_name seq_file_name "" w = (Ok tt, before) ->
  let result := read_cadnano_file file_name seq_file_name seq_name w in
  (forall s modified_structure,
     set_sequence_from_name s modified_structure seq_name
     = Raise (UnknownSequenceName seq_name)) /\
  result.1 = Raise (UnknownSequenceName seq_name) /\
  self result.2 = self before /\
  calls result.2 =
    calls before ++
      [Returned (CallLoggerError (unrecognized_message seq_name));
       Raised (CallSetSequenceFromName false seq_name) (UnknownSequenceName seq_name)].
Proof.
  intros Hname Hunknown Hbefore. simpl. split.
  { intros s m. unfold set_sequence_from_name. rewrite Hunknown. reflexivity. }
  assert (Hgiven : truthy seq_name = true).
  { unfold truthy. apply String.eqb_neq in Hname. rewrite Hname. reflexivity. }
  revert Hbefore. run_read. rewrite Hgiven, Hunknown. simpl.
  split_paths; intros [= <-]; simpl; rewrite <- ?app_assoc; repeat split.
Qed.

(** C2, as amended: every sequence-assignment call that
    [read_cadnano_file] makes, on the CSV path and on the named-sequence
    path, is given [modified_structure = False], and [create_structure]
    is given the converter's [modify]; the two modes are therefore equal
    for a converter with [modify = False]. *)
Theorem read_cadnano_file_assigns_unmodified
    (w : World) (file_name seq_file_name seq_name : string) :
  let result := read_cadnano_file file_name seq_file_name seq_name w in
  exists made,
    calls result.2 = calls w ++ made /\
    Forall (fun ev => forall m, assignment_mode (call_of ev) = Some m -> m = false) made /\
    Forall (fun ev => forall m, build_mode (call_of ev) = Some m -> m = modify (self w)) made.
Proof.
  destruct (read_cadnano_file_log w file_name seq_file_name seq_name)
    as (made & Hcalls & Hassign & Hbuild & _).
  exists made. auto.
Qed.

End ReadCadnanoFile.

(** ** Sessions: the structure is built before it is used *)

Section Sessions.
Context `{Collaborators}.

Lemma built_before_use_app (built : bool) (l1 l2 : list Event) :
  built_before_use built (l1 ++ l2) =
  built_before_use built l1 && built_before_use (built || existsb is_build l1) l2.
Proof.
  revert built. induction l1 as [| ev l1 IH]; intros built; simpl.
  - rewrite orb_false_r. reflexivity.
  - rewrite IH, andb_assoc, orb_assoc. reflexivity.
Qed.

Lemma built_before_use_weaken (built : bool) (l : list Event) :
  built_before_use built l = true -> built_before_use true l = true.
Proof.
  revert built. induction l as [| ev l IH]; intros built; simpl; [reflexivity |].
  intros [_ Hrest]%andb_prop. apply (IH _ Hrest).
Qed.

Ltac run_method_body :=
  unfold perform_staple_operations, parse_retained, write_topology_file,
    write_structure_file, write_cando_file, write_cadnano_file,
    dna_structure_attr, load_local, lift, invoke, emit, update, gets, raise,
    mbind, M_bind, mret, M_ret.

Ltac split_paths :=
  repeat match goal with
    | |- context [match ?x with _ => _ end] =>
        lazymatch x with
        | context [match _ with _ => _ end] => fail
        | _ => destruct x eqn:?; simpl
        end
    end.

(** What a method other than [read_cadnano_file] adds to the log: it
    builds nothing, keeps a converter without structure without one, and
    calls the assigner or the staple operations only on a converter that
    holds a structure. *)
Lemma other_method_log (w : World) (m : Method) :
  (forall file_name seq_file_name seq_name,
     m <> ReadCadnanoFile file_name seq_file_name seq_name) ->
  exists made,
    calls (run_method m w).2 = calls w ++ made /\
    built_before_use (has_structure w) made = true /\
    has_structure (run_method m w).2 = has_structure w.
Proof.
  intros Hother. unfold has_structure.
  destruct m as [f sf sn | staples_arg | f | f | f | f];
    [destruct (Hother f sf sn eq_refl) | ..]; simpl; run_method_body.
  1: destruct (split1_shape ","%char staples_arg) as [-> | (op & clause & -> & _)]; simpl.
  all: split_paths; try congruence.
  all: first [ exists []; rewrite app_nil_r; repeat split; reflexivity
             | rewrite <- ?app_assoc; simpl; eexists; repeat split; reflexivity ].
Qed.

Lemma Converter_init_invariant (modify_arg logg_arg : option bool) :
  session_invariant (Converter_init modify_arg logg_arg).
Proof. split; [reflexivity | discriminate]. Qed.

Lemma run_method_invariant (w : World) (m : Method) :
  session_invariant w -> session_invariant (run_method m w).2.
Proof.
  intros [Hlog Hbuilt]. unfold session_invariant.
  assert (Hcases : (exists f sf sn, m = ReadCadnanoFile f sf sn) \/
                   (forall f sf sn, m <> ReadCadnanoFile f sf sn)).
  { destruct m; eauto; right; discriminate. }
  destruct Hcases as [(f & sf & sn & ->) | Hother].
  - simpl. destruct (read_cadnano_file_log w f sf sn)
      as (made & -> & _ & _ & Hmade & Hstructure).
    rewrite built_before_use_app, existsb_app, Hlog. simpl. split.
    + destruct (existsb is_build (calls w)); [| exact Hmade].
      apply (built_before_use_weaken _ _ Hmade).
    + intros Hhas. destruct Hstructure as [Hsame | ->]; [| apply orb_true_r].
      unfold has_structure in Hhas, Hbuilt. rewrite Hsame in Hhas.
      rewrite (Hbuilt Hhas). reflexivity.
  - destruct (other_method_log w m Hother) as (made & -> & Hmade & ->).
    rewrite built_before_use_app, existsb_app, Hlog. simpl. split.
    + destruct (has_structure w).
      * rewrite (Hbuilt eq_refl). exact Hmade.
      * destruct (existsb is_build (calls w)); [| exact Hmade].
        apply (built_before_use_weaken _ _ Hmade).
    + intros Hhas. rewrite (Hbuilt Hhas). reflexivity.
Qed.

Lemma run_session_invariant (ms : list Method) (w : World) :
  session_invariant w -> session_invariant (run_session ms w).
Proof.
  revert w. induction ms as [| m ms IH]; intros w Hw; simpl; [exact Hw |].
  apply IH, run_method_invariant, Hw.
Qed.

(** C5: within one [read_cadnano_file] call every call to the Sequence
    Assigner comes after a [create_structure] call of that same call has
    returned; [perform_staple_operations] calls the staple operations
    only on a converter that holds a structure; and in the log of any
    session on a new converter every assigner call and every staple
    operation comes after a [create_structure] call that returned. *)
Theorem structure_built_before_use :
  (forall (w : World) (file_name seq_file_name seq_name : string),
     exists made,
       calls (read_cadnano_file file_name seq_file_name seq_name w).2 = calls w ++ made
       /\ built_before_use false made = true) /\
  (forall (w : World) (staples_arg : string),
     exists made,
       calls (perform_staple_operations staples_arg w).2 = calls w ++ made
       /\ built_before_use (has_structure w) made = true) /\
  (forall (modify_arg logg_arg : option bool) (ms : list Method),
     built_before_use false
       (calls (run_session ms (Converter_init modify_arg logg_arg))) = true).
Proof.
  split; [| split].
  - intros w f sf sn.
    destruct (read_cadnano_file_log w f sf sn) as (made & Hcalls & _ & _ & Hmade & _).
    exists made. auto.
  - intros w staples_arg.
    destruct (other_method_log w (PerformStapleOperations staples_arg))
      as (made & Hcalls & Hmade & _); [discriminate |].
    exists made. auto.
  - intros modify_arg logg_arg ms.
    apply (run_session_invariant ms), Converter_init_invariant.
Qed.

End Sessions.

(** ** The default mode *)



Section DefaultMode.
Context `{Collaborators}.


End DefaultMode.
Example split1_examples :
  PyStr.split1 ","%char "delete" = ["delete"] /\
  PyStr.split1 ","%char "delete,retain:1,2" = ["delete"; "retain:1,2"] /\
  PyStr.split1 ","%char "," = [""; ""].
Proof. repeat split; reflexivity. Qed.

Example re_split_examples :
  PyStr.re_split_nonword "retain:1,22" = ["retain"; "1"; "22"] /\
  PyStr.re_split_nonword " retain 7" = [""; "retain"; "7"] /\
  PyStr.re_split_nonword "" = [""] /\
  PyStr.re_split_nonword "retain::3:" = ["retain"; ""; "3"; ""].
Proof. repeat split; reflexivity. Qed.

Example int_examples :
  PyStr.int "42" = Some 42 /\ PyStr.int "007" = Some 7 /\
  PyStr.int "1_0" = Some 10 /\ PyStr.int "_1" = None /\
  PyStr.int "1__0" = None /\ PyStr.int "red" = None /\
  PyStr.int " -5 " = Some (-5) /\ PyStr.int "" = None.
Proof. repeat split; reflexivity. Qed.

Example splitext_examples :
  PyStr.splitext "staples.csv" = ("staples", ".csv") /\
  PyStr.splitext "dir.d/seq" = ("dir.d/seq", "") /\
  PyStr.splitext ".csv" = (".csv", "") /\
  PyStr.splitext "a/b.c.txt" = ("a/b.c", ".txt") /\
  PyStr.splitext "seq.CSV" = ("seq", ".CSV").
Proof. repeat split; reflexivity. Qed.

Example get_staples_by_color_demo :
  get_staples_by_color (Demo.build false Demo.design) [5] = {[1; 2]} /\
  get_staples_by_color (Demo.build false Demo.design) [] = ∅ /\
  staple_set (Demo.build false Demo.design) = {[1; 2; 3]}.
Proof. repeat split; vm_compute; reflexivity. Qed.

Example expand_slots_demo :
  length (expand_slots false Demo.design) = 4%nat /\
  length (expand_slots true Demo.design) = 6%nat.
Proof. split; reflexivity. Qed.

(** ** The converter run on the concrete collaborators *)

Example perform_staple_operations_before_reading :
  perform_staple_operations "delete" Demo.fresh
    = (Raise (AttributeError "remove_staples"), Demo.fresh) /\
  perform_staple_operations "delete,retain 5" Demo.fresh
    = (Raise (AttributeError "get_staples_by_color"), Demo.fresh) /\
  perform_staple_operations "delete,retain red" Demo.fresh
    = (Raise (ValueError "red"), Demo.fresh).
Proof. repeat split; reflexivity. Qed.

Example perform_staple_operations_delete_retain_5 :
  let result := perform_staple_operations "delete,retain 5" Demo.loaded in
  result.1 = Ok tt /\
  (staple_set <$> dna_structure (self result.2)) = Some {[1; 2]} /\
  (dom <$> (scaffold_strands <$> dna_structure (self result.2))) = Some {[0]}.
Proof. repeat split; vm_compute; reflexivity. Qed.

(** C2, counterexample: a converter made with [modify=True] builds in the
    modified mode and then assigns, from the table and by name, with
    [modified_structure = False]. *)
Lemma read_cadnano_file_mode_mismatch :
  let result :=
    read_cadnano_file "design.json" "staples.csv" "M13mp18" Demo.fresh_modify in
  modify (self Demo.fresh_modify) = true /\
  result.1 = Ok tt /\
  calls result.2 =
    [ Returned (CallReadJson "design.json");
      Returned (@CallCreateStructure Demo.collaborators Demo.design true);
      Returned (CallReadCsv "staples.csv");
      Returned (@CallSetSequence Demo.collaborators false [(0, 0, dA)]);
      Returned (CallSetSequenceFromName false "M13mp18") ] /\
  ~ Forall (fun ev => forall m, assignment_mode (call_of ev) = Some m ->
                                m = modify (self Demo.fresh_modify))
      (calls result.2).
Proof.
  simpl. split; [reflexivity |]. split; [reflexivity |]. split; [reflexivity |].
  intros Hall. rewrite Forall_forall in Hall.
  assert (Hfalse : false = true); [| discriminate Hfalse].
  apply (Hall (Returned (@CallSetSequence Demo.collaborators false [(0, 0, dA)]))).
  - vm_compute. do 3 apply list_elem_of_further. apply list_elem_of_here.
  - reflexivity.
Qed.

(** C3, counterexample: the first token is [delete] and the clause names a
    colour that is not an integer literal; [int] raises [ValueError],
    [remove_staples] is not called and the three staples stay. *)
Lemma perform_staple_operations_delete_rejects_colour_name :
  let result := perform_staple_operations "delete,retain red" Demo.loaded in
  nth 0 (PyStr.split1 ","%char "delete,retain red") "" = "delete" /\
  result = (Raise (ValueError "red"), Demo.loaded) /\
  forallb (fun ev => negb (is_staple_mutation (call_of ev))) (calls result.2) = true /\
  (staple_set <$> dna_structure (self result.2)) = Some {[1; 2; 3]}.
Proof. repeat split; vm_compute; reflexivity. Qed.

(** C4, counterexample: the first token is [maximal_set] and the clause
    names a colour that is not an integer literal; [int] raises
    [ValueError] and [generate_maximal_staple_set] is not called. *)
Lemma perform_staple_operations_maximal_set_rejects_colour_name :
  let result := perform_staple_operations "maximal_set,retain red" Demo.loaded in
  nth 0 (PyStr.split1 ","%char "maximal_set,retain red") "" = "maximal_set" /\
  result = (Raise (ValueError "red"), Demo.loaded) /\
  forallb (fun ev => negb (is_staple_mutation (call_of ev))) (calls result.2) = true.
Proof. repeat split; vm_compute; reflexivity. Qed.

(** C1 at work: the name [p7249] is not in the table of the concrete
    collaborators. *)
Lemma read_cadnano_file_unknown_sequence_name_witness :
  let before := (read_cadnano_file "design.json" "staples.csv" "" Demo.fresh).2 in
  let result := read_cadnano_file "design.json" "staples.csv" "p7249" Demo.fresh in
  "p7249" <> "" /\
  @dna_sequence_data Demo.collaborators !! "p7249" = None /\
  read_cadnano_file "design.json" "staples.csv" "" Demo.fresh = (Ok tt, before) /\
  result.1 = Raise (UnknownSequenceName "p7249") /\
  self result.2 = self before.
Proof.
  split; [discriminate |]. split; [reflexivity |]. split; [reflexivity |].
  pose proof (read_cadnano_file_unknown_sequence_name Demo.fresh
                (read_cadnano_file "design.json" "staples.csv" "" Demo.fresh).2
                "design.json" "staples.csv" "p7249"
                ltac:(discriminate) eq_refl eq_refl) as (_ & Hraise & Hself & _).
  split; assumption.
Defined.

(** C3 at work: [delete,retain 5] keeps the staples coloured 5. *)
Lemma perform_staple_operations_delete_retains_witness :
  let built := Demo.build false Demo.design in
  let result := perform_staple_operations "delete,retain 5" Demo.loaded in
  PyStr.split1 ","%char "delete,retain 5" = ["delete"; "retain 5"] /\
  retain_clause ["delete"; "retain 5"] [5] /\
  dna_structure (self Demo.loaded) = Some built /\
  result.1 = Ok tt /\
  dna_structure (self result.2) = Some (remove_staples built (get_staples_by_color built [5])).
Proof.
  split; [reflexivity |].
  assert (Hclause : retain_clause ["delete"; "retain 5"] [5]).
  { apply (retain_some "delete" "retain 5" ["5"] [5]); reflexivity. }
  split; [exact Hclause |]. split; [reflexivity |].
  pose proof (perform_staple_operations_delete_retains Demo.loaded (Demo.build false Demo.design)
                "delete,retain 5" ["delete"; "retain 5"] [5]
                eq_refl eq_refl Hclause eq_refl) as (Hok & _ & Hmodel & _).
  split; assumption.
Defined.

(** C4 at work: [maximal_set,retain:5,7]. *)
Lemma perform_staple_operations_maximal_set_regenerates_witness :
  let built := Demo.build false Demo.design in
  let result := perform_staple_operations "maximal_set,retain:5,7" Demo.loaded in
  PyStr.split1 ","%char "maximal_set,retain:5,7" = ["maximal_set"; "retain:5,7"] /\
  retain_clause ["maximal_set"; "retain:5,7"] [5; 7] /\
  dna_structure (self Demo.loaded) = Some built /\
  result.1 = Ok tt /\
  calls result.2 =
    calls Demo.loaded ++
      [ Returned (CallGetStaplesByColor [5; 7]);
        Returned (CallGenerateMaximalStapleSet (get_staples_by_color built [5; 7])) ].
Proof.
  split; [reflexivity |].
  assert (Hclause : retain_clause ["maximal_set"; "retain:5,7"] [5; 7]).
  { apply (retain_some "maximal_set" "retain:5,7" ["5"; "7"] [5; 7]); reflexivity. }
  split; [exact Hclause |]. split; [reflexivity |].
  pose proof (perform_staple_operations_maximal_set_regenerates Demo.loaded
                (Demo.build false Demo.design)
                "maximal_set,retain:5,7" ["maximal_set"; "retain:5,7"] [5; 7]
                eq_refl eq_refl Hclause eq_refl) as (Hok & Hcalls & _).
  split; assumption.
Defined.

(** C7 at work: [delete] alone. *)
Lemma perform_staple_operations_delete_all_witness :
  let built := Demo.build false Demo.design in
  let result := perform_staple_operations "delete" Demo.loaded in
  PyStr.split1 ","%char "delete" = ["delete"] /\
  dna_structure (self Demo.loaded) = Some built /\
  result.1 = Ok tt /\
  calls result.2 = calls Demo.loaded ++ [Returned (CallRemoveStaples ∅)] /\
  staple_set (remove_staples built ∅) = ∅.
Proof.
  split; [reflexivity |]. split; [reflexivity |].
  pose proof (perform_staple_operations_delete_all Demo.loaded
                (Demo.build false Demo.design) "delete" eq_refl eq_refl)
    as (Hok & Hcalls & _ & Hnone & _).
  repeat split; assumption.
Defined.

(** C8 at work: [delete,keep 5]. *)
Lemma perform_staple_operations_unbound_retain_colors_witness :
  let result := perform_staple_operations "delete,keep 5" Demo.loaded in
  PyStr.split1 ","%char "delete,keep 5" = ["delete"; "keep 5"] /\
  nth 0 (PyStr.re_split_nonword "keep 5") "" <> "retain" /\
  result.2 = Demo.loaded /\
  result.1 = Raise (UnboundLocalError "retain_colors").
Proof.
  split; [reflexivity |]. split; [discriminate |].
  pose proof (perform_staple_operations_unbound_retain_colors Demo.loaded
                "delete,keep 5" "delete" "keep 5" eq_refl ltac:(discriminate))
    as (Hsame & _ & Hname).
  split; [exact Hsame |]. exact (proj1 (Hname (Demo.build false Demo.design) eq_refl)).
Defined.

(** C9 at work: the sequence file [staples.txt]. *)
Lemma read_cadnano_file_ignores_other_extension_witness :
  let result := read_cadnano_file "design.json" "staples.txt" "" Demo.fresh in
  "staples.txt" <> "" /\
  (PyStr.splitext "staples.txt").2 <> ".csv" /\
  result = read_cadnano_file "design.json" "" "" Demo.fresh.
Proof.
  split; [discriminate |]. split; [discriminate |].
  exact (proj1 (read_cadnano_file_ignores_other_extension Demo.fresh
                  "design.json" "staples.txt" ""
                  ltac:(discriminate) ltac:(discriminate))).
Defined.

(** C10 at work: the operation [list]. *)
Lemma perform_staple_operations_other_operation_witness :
  let result := perform_staple_operations "list,retain 5" Demo.loaded in
  nth 0 (PyStr.split1 ","%char "list,retain 5") "" <> "delete" /\
  nth 0 (PyStr.split1 ","%char "list,retain 5") "" <> "maximal_set" /\
  self result.2 = self Demo.loaded.
Proof.
  split; [discriminate |]. split; [discriminate |].
  exact (proj1 (perform_staple_operations_other_operation Demo.loaded "list,retain 5"
                  ltac:(discriminate) ltac:(discriminate))).
Defined.

(** * Further properties of the converter's code *)

(** ** Splitting at commas *)

Lemma append_nil_l (s : string) : "" +:+ s = s.
Proof. reflexivity. Qed.

Lemma append_cons_l (c : ascii) (s t : string) : String c s +:+ t = String c (s +:+ t).
Proof. reflexivity. Qed.

Lemma partition_before_has_no_sep (sep : ascii) (s before after : string) :
  PyStr.partition sep s = Some (before, after) -> count_char sep before = 0%nat.
Proof.
  revert before after. induction s as [| c rest IH]; intros before after; simpl.
  - discriminate.
  - destruct (Ascii.eqb c sep) eqn:Hc.
    + intros [= <- <-]. reflexivity.
    + destruct (PyStr.partition sep rest) as [[b a] |]; [| discriminate].
      intros [= <- <-]. simpl. rewrite Hc. apply (IH b a eq_refl).
Qed.

Lemma partition_none_has_no_sep (sep : ascii) (s : string) :
  PyStr.partition sep s = None -> count_char sep s = 0%nat.
Proof.
  induction s as [| c rest IH]; simpl; [reflexivity |].
  destruct (Ascii.eqb c sep); [discriminate |].
  destruct (PyStr.partition sep rest) as [[b a] |]; [discriminate |].
  intros _. apply IH. reflexivity.
Qed.

(** X1: [staples_arg.split(",", 1)] gives one token, the argument itself,
    when there is no comma in it; otherwise two tokens, of which the first
    has no comma and which give the argument back when joined by a comma:
    the operation is what precedes the first comma and the clause is all the
    rest, further commas included. *)
Theorem split1_at_first_comma (staples_arg : string) :
  (PyStr.split1 ","%char staples_arg = [staples_arg]
   /\ count_char ","%char staples_arg = 0%nat) \/
  (exists operation clause,
     PyStr.split1 ","%char staples_arg = [operation; clause]
     /\ staples_arg = operation +:+ String ","%char clause
     /\ count_char ","%char operation = 0%nat).
Proof.
  unfold PyStr.split1.
  destruct (PyStr.partition ","%char staples_arg) as [[b a] |] eqn:E.
  - right. exists b, a. split; [reflexivity |]. split.
    + apply partition_spec, E.
    + apply (partition_before_has_no_sep _ _ _ _ E).
  - left. split; [reflexivity | apply partition_none_has_no_sep, E].
Qed.

Lemma PyStr_split_nonempty (sep : ascii) (s : string) : PyStr_split sep s <> [].
Proof.
  destruct s as [| c rest]; simpl; [discriminate |].
  destruct (Ascii.eqb c sep); [discriminate |].
  destruct (PyStr_split sep rest); discriminate.
Qed.

Lemma PyStr_split_length (sep : ascii) (s : string) :
  length (PyStr_split sep s) = S (count_char sep s).
Proof.
  induction s as [| c rest IH]; simpl; [reflexivity |].
  destruct (Ascii.eqb c sep); simpl.
  - rewrite IH. reflexivity.
  - destruct (PyStr_split sep rest) as [| piece pieces]; simpl in *; lia.
Qed.

Lemma PyStr_join_cons (sep : ascii) (c : ascii) (piece : string) (pieces : list string) :
  PyStr_join sep (String c piece :: pieces) = String c (PyStr_join sep (piece :: pieces)).
Proof. destruct pieces; reflexivity. Qed.

Lemma PyStr_join_split (sep : ascii) (s : string) :
  PyStr_join sep (PyStr_split sep s) = s.
Proof.
  induction s as [| c rest IH]; simpl; [reflexivity |].
  destruct (Ascii.eqb_spec c sep) as [-> | Hne].
  - destruct (PyStr_split sep rest) as [| piece pieces] eqn:E.
    + destruct (PyStr_split_nonempty _ _ E).
    + change (PyStr_join sep ("" :: piece :: pieces))
        with ("" +:+ String sep (PyStr_join sep (piece :: pieces))).
      rewrite IH. reflexivity.
  - destruct (PyStr_split sep rest) as [| piece pieces] eqn:E.
    + destruct (PyStr_split_nonempty _ _ E).
    + rewrite PyStr_join_cons, IH. reflexivity.
Qed.

Lemma PyStr_split_pieces (sep : ascii) (s : string) :
  Forall (fun piece => count_char sep piece = 0%nat) (PyStr_split sep s).
Proof.
  induction s as [| c rest IH]; simpl; [repeat constructor |].
  destruct (Ascii.eqb c sep) eqn:Hc.
  - constructor; [reflexivity | exact IH].
  - destruct (PyStr_split sep rest) as [| piece pieces].
    + repeat constructor. simpl. rewrite Hc. reflexivity.
    + inversion IH as [| ? ? Hpiece Hpieces]; subst.
      constructor; [| exact Hpieces]. simpl. rewrite Hc. exact Hpiece.
Qed.

(** X2: [set_module_loggers] sets one logger to [DEBUG] for each
    comma-separated piece of [names], one more than there are commas: the
    names are taken as they stand, empty ones included: they have no comma
    and, joined by commas, give [names] back. *)
Theorem set_module_loggers_calls (names : string) :
  length (set_module_loggers names) = S (count_char ","%char names) /\
  PyStr_join ","%char (map fst (set_module_loggers names)) = names /\
  Forall (fun call => call.2 = DEBUG /\ count_char ","%char call.1 = 0%nat)
    (set_module_loggers names).
Proof.
  unfold set_module_loggers. split; [| split].
  - rewrite length_map. apply PyStr_split_length.
  - rewrite map_map. simpl. rewrite map_id. apply PyStr_join_split.
  - apply Forall_map. simpl.
    apply (Forall_impl _ _ _ (PyStr_split_pieces ","%char names)). auto.
Qed.

(** ** The colours of a retain clause *)

Lemma is_word_not_space (c : ascii) : PyStr.is_word c = true -> PyStr.is_space c = false.
Proof.
  unfold PyStr.is_word, PyStr.is_alpha, PyStr.is_digit, PyStr.is_space.
  repeat match goal with
    | |- context [?a <=? ?b] => destruct (Z.leb_spec a b)
    | |- context [?a =? ?b] => destruct (Z.eqb_spec a b)
    end; simpl; intros; try reflexivity; try discriminate; lia.
Qed.

Lemma is_digit_code (c : ascii) : PyStr.is_digit c = true -> 0 <= PyStr.code c - 48.
Proof.
  unfold PyStr.is_digit. intros [Hlow _]%andb_prop. apply Z.leb_le in Hlow. lia.
Qed.

Lemma lstrip_word (s : string) : all_word s = true -> PyStr.lstrip s = s.
Proof.
  destruct s as [| c rest]; simpl; [reflexivity |].
  intros [Hc _]%andb_prop. rewrite (is_word_not_space c Hc). reflexivity.
Qed.

Lemma rstrip_word (s : string) : all_word s = true -> PyStr.rstrip s = s.
Proof.
  induction s as [| c rest IH]; simpl; [reflexivity |].
  intros [Hc Hrest]%andb_prop. rewrite (is_word_not_space c Hc), (IH Hrest). reflexivity.
Qed.

Lemma int_digits_nonneg (s : string) (acc : Z) (after_digit : bool) (n : Z) :
  0 <= acc -> PyStr.int_digits acc after_digit s = Some n -> 0 <= n.
Proof.
  revert acc after_digit. induction s as [| c rest IH]; intros acc after_digit Hacc; simpl.
  - destruct after_digit; [intros [= <-]; exact Hacc | discriminate].
  - destruct (PyStr.is_digit c) eqn:Hdigit.
    + apply IH. pose proof (is_digit_code c Hdigit). lia.
    + destruct ((PyStr.code c =? 95) && after_digit); [apply IH, Hacc | discriminate].
Qed.

Lemma int_word_nonneg (s : string) (n : Z) :
  all_word s = true -> PyStr.int s = Some n -> 0 <= n.
Proof.
  intros Hword. unfold PyStr.int. rewrite (lstrip_word s Hword), (rstrip_word s Hword).
  destruct s as [| c rest]; [discriminate |].
  simpl in Hword. apply andb_prop in Hword as [Hc _].
  destruct c as [[] [] [] [] [] [] [] []];
    first [ discriminate Hc | apply int_digits_nonneg; lia ].
Qed.

Lemma re_split_nonword_words (s : string) :
  Forall (fun piece => all_word piece = true) (PyStr.re_split_nonword s).
Proof.
  induction s as [| c rest IH]; simpl; [repeat constructor |].
  destruct (PyStr.is_word c) eqn:Hc.
  - destruct (PyStr.re_split_nonword rest) as [| piece pieces].
    + repeat constructor. simpl. rewrite Hc. reflexivity.
    + inversion IH as [| ? ? Hpiece Hpieces]; subst.
      constructor; [| exact Hpieces]. simpl. rewrite Hc. exact Hpiece.
  - constructor; [reflexivity | exact IH].
Qed.

Lemma int_colors_nonneg (tokens : list string) (colors : list Z) :
  Forall (fun piece => all_word piece = true) tokens ->
  int_colors tokens = Ok colors -> Forall (fun color => 0 <= color) colors.
Proof.
  intros Hwords. revert colors.
  induction Hwords as [| token tokens Hword _ IH]; intros colors; simpl.
  - intros [= <-]. constructor.
  - destruct (String.eqb token ""); [apply IH |].
    destruct (PyStr.int token) as [n |] eqn:Hint; [| discriminate].
    destruct (int_colors tokens) as [ns | e]; [| discriminate].
    intros [= <-]. constructor; [apply (int_word_nonneg token n Hword Hint) | auto].
Qed.


(** ** More on [perform_staple_operations] *)

Section StapleDirectives.
Context `{Collaborators}.

Ltac run_staples :=
  unfold perform_staple_operations, parse_retained, dna_structure_attr,
    load_local, lift, invoke, emit, update, gets, raise,
    mbind, M_bind, mret, M_ret.

(** X3: the colours handed to [get_staples_by_color] are never negative:
    a minus sign is a non-word character, so it separates tokens and never
    reaches [int]. *)
Theorem perform_staple_operations_colors_nonnegative
    (w : World) (staples_arg : string) :
  exists made,
    calls (perform_staple_operations staples_arg w).2 = calls w ++ made /\
    Forall (fun ev => forall colors,
              call_of ev = CallGetStaplesByColor colors ->
              Forall (fun color => 0 <= color) colors) made.
Proof.
  destruct (dna_structure (self w)) as [s |] eqn:Hs; run_staples.
  all: destruct (split1_shape ","%char staples_arg) as [-> | (op & clause & -> & _)];
    simpl; rewrite ?Hs.
  all: try (pose proof (re_split_nonword_words clause) as Hwords;
            destruct (PyStr.re_split_nonword clause) as [| first literals];
            [| inversion Hwords as [| ? ? _ Hliterals]; subst ]).
  all: repeat (simpl; rewrite ?Hs;
               match goal with
               | |- context [String.eqb ?a ?b] => destruct (String.eqb a b)
               | |- context [int_colors ?l] => destruct (int_colors l) eqn:Hints
               end).
  all: repeat (progress (simpl; rewrite ?Hs)).
  all: first [ exists []; rewrite app_nil_r; split; [reflexivity | constructor]
             | rewrite <- ?app_assoc; eexists; (split; [reflexivity |]);
               repeat constructor; simpl; try discriminate;
               intros ? [= <-]; apply (int_colors_nonneg _ _ Hliterals Hints) ].
Qed.

(** X4: on a converter that holds a structure, [perform_staple_operations]
    returns normally exactly when [staples_arg] has no retain clause or has
    one made of the word [retain] followed by integer literals, whatever the
    operation named before the comma. *)
Theorem perform_staple_operations_returns_iff
    (w : World) (s : DnaStructure) (staples_arg : string) :
  dna_structure (self w) = Some s ->
  (perform_staple_operations staples_arg w).1 = Ok tt <->
  exists colors, retain_clause (PyStr.split1 ","%char staples_arg) colors.
Proof.
  intros Hs. run_staples.
  destruct (split1_shape ","%char staples_arg) as [-> | (op & clause & -> & _)]; simpl.
  - split; [intros _; exists []; constructor | intros _].
    destruct (String.eqb staples_arg "delete"); [| destruct (String.eqb staples_arg "maximal_set")];
      repeat (progress (simpl; rewrite ?Hs)); reflexivity.
  - destruct (PyStr.re_split_nonword clause) as [| first literals] eqn:Hsplit.
    { destruct (re_split_nonword_nonempty _ Hsplit). }
    simpl. destruct (String.eqb_spec first "retain") as [-> | Hfirst]; simpl.
    + destruct (int_colors literals) as [colors | e] eqn:Hints;
        repeat (progress (simpl; rewrite ?Hs)).
      * split; [intros _; exists colors;
                apply (retain_some op clause literals colors Hsplit Hints) | intros _].
        destruct (String.eqb op "delete"); [| destruct (String.eqb op "maximal_set")];
          repeat (progress (simpl; rewrite ?Hs)); reflexivity.
      * split; [discriminate |].
        intros (colors & Hclause). inversion Hclause as [| ? ? ? ? Hretain Hok]; subst.
        rewrite Hsplit in Hretain. injection Hretain as <-. congruence.
    + repeat (progress (simpl; rewrite ?Hs)). split; [discriminate |].
      intros (colors & Hclause). inversion Hclause as [| ? ? ? ? Hretain Hok]; subst.
      rewrite Hsplit in Hretain. congruence.
Qed.


End StapleDirectives.

(** ** The extension of the sequence file *)

Lemma rfind_from_lower (c : ascii) (l : list ascii) (i last : Z) :
  last <= i -> last <= PyStr.rfind_from c i last l.
Proof.
  revert i last. induction l as [| x rest IH]; intros i last Hle; simpl; [lia |].
  destruct (Ascii.eqb x c).
  - transitivity i; [exact Hle | apply IH; lia].
  - apply IH. lia.
Qed.

Lemma string_of_list_ascii_app (a b : list ascii) :
  string_of_list_ascii (a ++ b) = string_of_list_ascii a +:+ string_of_list_ascii b.
Proof.
  induction a as [| x a IH]; simpl; [reflexivity |]. rewrite IH. reflexivity.
Qed.

Lemma append_nil_r (s : string) : s +:+ "" = s.
Proof.
  induction s as [| c s IH]; [reflexivity |]. rewrite append_cons_l, IH. reflexivity.
Qed.

Lemma splitext_join (p : string) :
  (PyStr.splitext p).1 +:+ (PyStr.splitext p).2 = p.
Proof.
  unfold PyStr.splitext. simpl.
  match goal with |- context [if ?b then _ else _] => destruct b end; simpl.
  - rewrite <- string_of_list_ascii_app, take_drop. apply string_of_list_ascii_of_string.
  - apply append_nil_r.
Qed.

(** A path whose extension is [.csv] is a non-empty stem followed by
    [.csv]. *)
Lemma splitext_csv (p : string) :
  (PyStr.splitext p).2 = ".csv" -> exists stem, stem <> "" /\ p = stem +:+ ".csv".
Proof.
  intros Hext. exists (PyStr.splitext p).1. split.
  - revert Hext. unfold PyStr.splitext. simpl.
    pose proof (rfind_from_lower "/"%char (list_ascii_of_string p) 0 (-1) ltac:(lia)) as Hsep.
    fold (PyStr.rfind "/"%char (list_ascii_of_string p)) in Hsep.
    set (l := list_ascii_of_string p) in *.
    set (sepIndex := PyStr.rfind "/"%char l) in *.
    set (dotIndex := PyStr.rfind "."%char l) in *.
    destruct (sepIndex <? dotIndex) eqn:Hlt; simpl; [| discriminate].
    destruct (existsb _ _) eqn:Hdots; [| discriminate].
    intros _. simpl.
    destruct (Z.to_nat (dotIndex - (sepIndex + 1))) as [| k] eqn:Hk; [discriminate Hdots |].
    destruct l as [| x l']; [rewrite drop_nil in Hdots; discriminate Hdots |].
    destruct (Z.to_nat dotIndex) eqn:Hdot; [lia |]. simpl. discriminate.
  - rewrite <- Hext. symmetry. apply splitext_join.
Qed.

(** ** More on [read_cadnano_file] *)

Section ReadPaths.
Context `{Collaborators}.

Ltac run_read :=
  unfold read_cadnano_file, set_sequence_from_name, dna_structure_attr,
    invoke, emit, update, gets, raise, mbind, M_bind, mret, M_ret.

Ltac split_paths :=
  repeat match goal with
    | |- context [match ?x with _ => _ end] =>
        lazymatch x with
        | context [match _ with _ => _ end] => fail
        | _ => destruct x eqn:?; simpl
        end
    end.

(** X6: [read_cadnano_file] reads a sequence table only from
    [seq_file_name] itself, and only when that name is a non-empty stem
    followed by [.csv]. *)
Theorem read_cadnano_file_reads_csv_names_only
    (w : World) (file_name seq_file_name seq_name : string) :
  exists made,
    calls (read_cadnano_file file_name seq_file_name seq_name w).2 = calls w ++ made /\
    Forall (fun ev => forall table_file,
              call_of ev = CallReadCsv table_file ->
              table_file = seq_file_name
              /\ exists stem, stem <> "" /\ seq_file_name = stem +:+ ".csv") made.
Proof.
  run_read. simpl. split_paths.
  all: rewrite <- ?app_assoc; simpl; eexists; (split; [reflexivity |]).
  all: repeat first
         [ apply List.Forall_nil
         | apply List.Forall_cons;
           [ simpl;
             first [ discriminate
                   | intros ? [= <-]; split;
                     [reflexivity | apply splitext_csv, String.eqb_eq; assumption] ]
           | ] ].
Qed.

(** X7: when [read_json] raises, the exception leaves
    [read_cadnano_file] with the converter untouched: no field is assigned
    and nothing else is called. *)
Theorem read_cadnano_file_read_json_raises
    (w : World) (file_name seq_file_name seq_name : string) (e : Exn) :
  read_json file_name = Raise e ->
  let result := read_cadnano_file file_name seq_file_name seq_name w in
  result.1 = Raise e /\
  self result.2 = self w /\
  calls result.2 = calls w ++ [Raised (CallReadJson file_name) e].
Proof.
  intros Hread. run_read. rewrite Hread. simpl. repeat split.
Qed.

(** X8: when [create_structure] raises, the exception leaves
    [read_cadnano_file] after the design was stored: the converter holds the
    new design together with the structure it had before, if any, and no
    sequence is read or assigned. *)
Theorem read_cadnano_file_create_structure_raises
    (w : World) (file_name seq_file_name seq_name : string)
    (design : CadnanoDesign) (e : Exn) :
  read_json file_name = Ok design ->
  create_structure (dna_parameters (self w)) design (modify (self w)) = Raise e ->
  let result := read_cadnano_file file_name seq_file_name seq_name w in
  result.1 = Raise e /\
  cadnano_design (self result.2) = Some design /\
  dna_structure (self result.2) = dna_structure (self w) /\
  calls result.2 =
    calls w ++ [Returned (CallReadJson file_name);
                Raised (CallCreateStructure design (modify (self w))) e].
Proof.
  intros Hread Hbuild. run_read. rewrite Hread. simpl. rewrite Hbuild. simpl.
  rewrite <- app_assoc. repeat split.
Qed.

(** X9: when [read_csv] raises, the exception leaves [read_cadnano_file]
    with the structure just built stored and unassigned; the assignment by
    name is not attempted, whatever [seq_name] is. *)
Theorem read_cadnano_file_read_csv_raises
    (w : World) (file_name seq_file_name seq_name : string)
    (design : CadnanoDesign) (built : DnaStructure) (e : Exn) :
  read_json file_name = Ok design ->
  create_structure (dna_parameters (self w)) design (modify (self w)) = Ok built ->
  seq_file_name <> "" ->
  (PyStr.splitext seq_file_name).2 = ".csv" ->
  read_csv seq_file_name = Raise e ->
  let result := read_cadnano_file file_name seq_file_name seq_name w in
  result.1 = Raise e /\
  dna_structure (self result.2) = Some built /\
  calls result.2 =
    calls w ++ [Returned (CallReadJson file_name);
                Returned (CallCreateStructure design (modify (self w)));
                Raised (CallReadCsv seq_file_name) e].
Proof.
  intros Hread Hbuild Hname Hext Hcsv.
  assert (Hgiven : truthy seq_file_name = true).
  { unfold truthy. apply String.eqb_neq in Hname. rewrite Hname. reflexivity. }
  apply String.eqb_eq in Hext.
  run_read. rewrite Hread. simpl. rewrite Hbuild. simpl.
  rewrite Hgiven, Hext. rewrite Hcsv. simpl. rewrite <- !app_assoc. repeat split.
Qed.

(** X10: when everything succeeds with a [.csv] table and a known sequence
    name, the table is assigned first and the named sequence second, both
    with [modified_structure = False] and both on the structure built by
    this call; nothing is reported to the logger. *)
Theorem read_cadnano_file_table_then_name
    (w : World) (file_name seq_file_name seq_name sequence : string)
    (design : CadnanoDesign) (built : DnaStructure) (table : SequenceTable) :
  read_json file_name = Ok design ->
  create_structure (dna_parameters (self w)) design (modify (self w)) = Ok built ->
  seq_file_name <> "" ->
  (PyStr.splitext seq_file_name).2 = ".csv" ->
  read_csv seq_file_name = Ok table ->
  seq_name <> "" ->
  dna_sequence_data !! seq_name = Some sequence ->
  let result := read_cadnano_file file_name seq_file_name seq_name w in
  result.1 = Ok tt /\
  dna_structure (self result.2) =
    Some (assign_scaffold_sequence (set_sequence built false table) false sequence) /\
  calls result.2 =
    calls w ++ [Returned (CallReadJson file_name);
                Returned (CallCreateStructure design (modify (self w)));
                Returned (CallReadCsv seq_file_name);
                Returned (CallSetSequence false table);
                Returned (CallSetSequenceFromName false seq_name)].
Proof.
  intros Hread Hbuild Hfile Hext Hcsv Hname Hknown.
  assert (Hgiven : truthy seq_file_name = true).
  { unfold truthy. apply String.eqb_neq in Hfile. rewrite Hfile. reflexivity. }
  assert (Hnamed : truthy seq_name = true).
  { unfold truthy. apply String.eqb_neq in Hname. rewrite Hname. reflexivity. }
  apply String.eqb_eq in Hext.
  run_read. rewrite Hread. simpl. rewrite Hbuild. simpl.
  rewrite Hgiven, Hext, Hcsv, Hnamed, Hknown. simpl.
  rewrite <- !app_assoc. repeat split.
Qed.

(** X11: [read_cadnano_file] reports to the logger only a non-empty
    sequence name that is not a key of [dna_sequence_data], with the
    message naming it. *)
Theorem read_cadnano_file_logs_unknown_names_only
    (w : World) (file_name seq_file_name seq_name : string) :
  exists made,
    calls (read_cadnano_file file_name seq_file_name seq_name w).2 = calls w ++ made /\
    Forall (fun ev => forall message,
              call_of ev = CallLoggerError message ->
              seq_name <> ""
              /\ dna_sequence_data !! seq_name = None
              /\ message = unrecognized_message seq_name) made.
Proof.
  run_read. simpl. split_paths.
  all: rewrite <- ?app_assoc; simpl; eexists; (split; [reflexivity |]).
  all: repeat first
         [ apply List.Forall_nil
         | apply List.Forall_cons;
           [ simpl;
             first [ discriminate
                   | intros ? [= <-]; split; [intros ->; discriminate |];
                     split; [| reflexivity];
                     match goal with
                     | Hd : bool_decide _ = true |- _ =>
                         apply bool_decide_eq_true in Hd; exact Hd
                     end ]
           | ] ].
Qed.

(** X12: what [read_cadnano_file] leaves as design and structure does not
    depend on the design and structure the converter held before: two
    converters with the same [modify] and parameters end with the same
    result, the same new calls and, when the call returns normally, the
    same design and structure. *)
Theorem read_cadnano_file_replaces_structure
    (w1 w2 : World) (file_name seq_file_name seq_name : string) :
  modify (self w1) = modify (self w2) ->
  dna_parameters (self w1) = dna_parameters (self w2) ->
  let result1 := read_cadnano_file file_name seq_file_name seq_name w1 in
  let result2 := read_cadnano_file file_name seq_file_name seq_name w2 in
  result1.1 = result2.1 /\
  (exists made,
     calls result1.2 = calls w1 ++ made /\ calls result2.2 = calls w2 ++ made) /\
  (result1.1 = Ok tt ->
   cadnano_design (self result1.2) = cadnano_design (self result2.2)
   /\ dna_structure (self result1.2) = dna_structure (self result2.2)).
Proof.
  intros Hmodify Hparameters. run_read. simpl.
  destruct (read_json file_name) as [design | e]; simpl;
    rewrite ?Hmodify, ?Hparameters; split_paths.
  all: rewrite <- ?app_assoc; simpl.
  all: split; [reflexivity |]; split; [eexists; split; reflexivity |].
  all: first [discriminate | intros _; split; reflexivity].
Qed.

End ReadPaths.

(** ** More on sessions and on the writers *)

Section SessionFrame.
Context `{Collaborators}.

Ltac run_any_method :=
  unfold run_method, read_cadnano_file, set_sequence_from_name,
    perform_staple_operations, parse_retained, write_topology_file,
    write_structure_file, write_cando_file, write_cadnano_file,
    dna_structure_attr, load_local, lift, invoke, emit, update, gets, raise,
    mbind, M_bind, mret, M_ret.

Ltac split_paths :=
  repeat match goal with
    | |- context [match ?x with _ => _ end] =>
        lazymatch x with
        | context [match _ with _ => _ end] => fail
        | _ => destruct x eqn:?; simpl
        end
    end.

Lemma run_method_configuration (w : World) (m : Method) :
  let w' := (run_method m w).2 in
  modify (self w') = modify (self w) /\
  dna_parameters (self w') = dna_parameters (self w) /\
  infile (self w') = infile (self w) /\
  informat (self w') = informat (self w) /\
  outfile (self w') = outfile (self w).
Proof.
  destruct m; run_any_method; simpl; split_paths; repeat split.
Qed.

(** X13: no method assigns [modify], [dna_parameters], [infile],
    [informat] or [outfile]: through any session a converter keeps the mode
    and the parameters it was constructed with, and the three file
    attributes stay [None]. *)
Theorem session_keeps_configuration
    (modify_arg logg_arg : option bool) (ms : list Method) :
  let w := run_session ms (Converter_init modify_arg logg_arg) in
  modify (self w) = default false modify_arg /\
  dna_parameters (self w) = new_DnaParameters /\
  infile (self w) = None /\
  informat (self w) = None /\
  outfile (self w) = None.
Proof.
  simpl.
  assert (Hgeneral : forall w0,
    modify (self (run_session ms w0)) = modify (self w0) /\
    dna_parameters (self (run_session ms w0)) = dna_parameters (self w0) /\
    infile (self (run_session ms w0)) = infile (self w0) /\
    informat (self (run_session ms w0)) = informat (self w0) /\
    outfile (self (run_session ms w0)) = outfile (self w0)).
  { induction ms as [| m ms IH]; intros w0; simpl; [repeat split |].
    destruct (run_method_configuration w0 m) as (H1 & H2 & H3 & H4 & H5).
    destruct (IH (run_method m w0).2) as (G1 & G2 & G3 & G4 & G5).
    simpl in *. repeat split; congruence. }
  apply (Hgeneral (Converter_init modify_arg logg_arg)).
Qed.

Lemma run_method_keeps_structure (w : World) (m : Method) :
  has_structure w = true -> has_structure (run_method m w).2 = true.
Proof.
  unfold has_structure.
  destruct (dna_structure (self w)) as [s |] eqn:Hs; [intros _ | discriminate].
  destruct m; run_any_method; simpl; rewrite ?Hs; simpl; split_paths;
    repeat (progress (simpl; rewrite ?Hs)); first [reflexivity | congruence].
Qed.

(** X14: a converter that holds a structure holds one after any further
    session: no method sets [dna_structure] back to [None], also when it
    raises. *)
Theorem session_keeps_structure (w : World) (ms : list Method) :
  has_structure w = true -> has_structure (run_session ms w) = true.
Proof.
  revert w. induction ms as [| m ms IH]; intros w Hw; simpl; [exact Hw |].
  apply IH, run_method_keeps_structure, Hw.
Qed.

(** X15: on a converter without structure, [write_topology_file] and
    [write_structure_file] raise [AttributeError] before any writer is
    called and leave everything as it was, whereas [write_cando_file] and
    [write_cadnano_file] construct their writer on [None] and call it: the
    outcome is the writer's own, one call is logged and the converter is
    unchanged. *)
Theorem writers_without_structure (w : World) (file_name : string) :
  dna_structure (self w) = None ->
  write_topology_file file_name w = (Raise (AttributeError "write_topology"), w) /\
  write_structure_file file_name w = (Raise (AttributeError "write"), w) /\
  (forall (format : Format) (write : string -> M unit),
     (format = Cando /\ write = write_cando_file)
     \/ (format = CadnanoJson /\ write = write_cadnano_file) ->
     (write file_name w).1 = write_file format None file_name /\
     self (write file_name w).2 = self w /\
     exists ev, call_of ev = CallWrite format file_name
                /\ calls (write file_name w).2 = calls w ++ [ev]).
Proof.
  intros Hs. split; [| split].
  - run_any_method. rewrite Hs. reflexivity.
  - run_any_method. rewrite Hs. reflexivity.
  - intros format write [[-> ->] | [-> ->]]; run_any_method; rewrite Hs; simpl.
    + destruct (write_file Cando None file_name) as [[] | e]; simpl;
        (split; [reflexivity |]; split; [reflexivity |]);
        [ exists (Returned (CallWrite Cando file_name))
        | exists (Raised (CallWrite Cando file_name) e) ]; split; reflexivity.
    + destruct (write_file CadnanoJson None file_name) as [[] | e]; simpl;
        (split; [reflexivity |]; split; [reflexivity |]);
        [ exists (Returned (CallWrite CadnanoJson file_name))
        | exists (Raised (CallWrite CadnanoJson file_name) e) ]; split; reflexivity.
Qed.

End SessionFrame.

(** ** The further properties on the concrete collaborators *)

Example set_module_loggers_examples :
  set_module_loggers "" = [("", DEBUG)] /\
  set_module_loggers "a.b, c,,d" = [("a.b", DEBUG); (" c", DEBUG); ("", DEBUG); ("d", DEBUG)].
Proof. split; reflexivity. Qed.

(** X4 at work: [delete,retain 5] on the loaded converter. *)
Lemma perform_staple_operations_returns_iff_witness :
  dna_structure (self Demo.loaded) = Some (Demo.build false Demo.design) /\
  ((perform_staple_operations "delete,retain 5" Demo.loaded).1 = Ok tt <->
   exists colors, retain_clause (PyStr.split1 ","%char "delete,retain 5") colors).
Proof.
  split; [reflexivity |].
  apply (perform_staple_operations_returns_iff Demo.loaded
           (Demo.build false Demo.design) "delete,retain 5" eq_refl).
Defined.


(** X7 at work: a design file that cannot be read. *)
Lemma read_cadnano_file_read_json_raises_witness :
  let result := read_cadnano_file "missing.json" "staples.csv" "M13mp18" Demo.loaded in
  @read_json Demo.collaborators "missing.json" = Raise (IOError "missing.json") /\
  result.1 = Raise (IOError "missing.json") /\
  self result.2 = self Demo.loaded.
Proof.
  split; [reflexivity |].
  pose proof (read_cadnano_file_read_json_raises Demo.loaded
                "missing.json" "staples.csv" "M13mp18" (IOError "missing.json") eq_refl)
    as (Hraise & Hself & _).
  split; assumption.
Defined.

(** X8 at work: the empty design is rejected by the builder after the
    converter was loaded from another design. *)
Lemma read_cadnano_file_create_structure_raises_witness :
  let result := read_cadnano_file "empty.json" "" "" DemoStrict.loaded in
  @read_json DemoStrict.collaborators "empty.json" = Ok [] /\
  @create_structure DemoStrict.collaborators
     (dna_parameters (self DemoStrict.loaded)) [] (modify (self DemoStrict.loaded))
  = Raise MalformedConnectivity /\
  result.1 = Raise MalformedConnectivity /\
  cadnano_design (self result.2) = Some [] /\
  dna_structure (self result.2) = Some (Demo.build false Demo.design).
Proof.
  split; [reflexivity |]. split; [reflexivity |].
  pose proof (read_cadnano_file_create_structure_raises DemoStrict.loaded
                "empty.json" "" "" [] MalformedConnectivity eq_refl eq_refl)
    as (Hraise & Hdesign & Hstructure & _).
  split; [exact Hraise |]. split; [exact Hdesign |].
  rewrite Hstructure. reflexivity.
Defined.

(** X9 at work: a table file that cannot be read. *)
Lemma read_cadnano_file_read_csv_raises_witness :
  let result := read_cadnano_file "design.json" "other.csv" "M13mp18" Demo.fresh in
  @read_json Demo.collaborators "design.json" = Ok Demo.design /\
  "other.csv" <> "" /\
  (PyStr.splitext "other.csv").2 = ".csv" /\
  @read_csv Demo.collaborators "other.csv" = Raise (IOError "other.csv") /\
  result.1 = Raise (IOError "other.csv") /\
  dna_structure (self result.2) = Some (Demo.build false Demo.design).
Proof.
  split; [reflexivity |]. split; [discriminate |]. split; [reflexivity |].
  split; [reflexivity |].
  pose proof (read_cadnano_file_read_csv_raises Demo.fresh
                "design.json" "other.csv" "M13mp18" Demo.design
                (Demo.build false Demo.design) (IOError "other.csv")
                eq_refl eq_refl ltac:(discriminate) eq_refl eq_refl)
    as (Hraise & Hstructure & _).
  split; assumption.
Defined.

(** X10 at work: a table and a known name. *)
Lemma read_cadnano_file_table_then_name_witness :
  let result := read_cadnano_file "design.json" "staples.csv" "M13mp18" Demo.fresh in
  "staples.csv" <> "" /\
  (PyStr.splitext "staples.csv").2 = ".csv" /\
  "M13mp18" <> "" /\
  @dna_sequence_data Demo.collaborators !! "M13mp18"
    = Some "AATGCTACTACTATTAGTAGAATTGATGCC" /\
  result.1 = Ok tt.
Proof.
  split; [discriminate |]. split; [reflexivity |]. split; [discriminate |].
  split; [reflexivity |].
  exact (proj1 (read_cadnano_file_table_then_name Demo.fresh
                  "design.json" "staples.csv" "M13mp18" "AATGCTACTACTATTAGTAGAATTGATGCC"
                  Demo.design (Demo.build false Demo.design) [(0, 0, dA)]
                  eq_refl eq_refl ltac:(discriminate) eq_refl eq_refl
                  ltac:(discriminate) eq_refl)).
Defined.

(** X12 at work: reading again after all staples were deleted gives the
    structure a new converter gets. *)
Lemma read_cadnano_file_replaces_structure_witness :
  let emptied := (perform_staple_operations "delete" Demo.loaded).2 in
  modify (self Demo.fresh) = modify (self emptied) /\
  dna_parameters (self Demo.fresh) = dna_parameters (self emptied) /\
  (read_cadnano_file "design.json" "" "" Demo.fresh).1
  = (read_cadnano_file "design.json" "" "" emptied).1.
Proof.
  split; [reflexivity |]. split; [reflexivity |].
  exact (proj1 (read_cadnano_file_replaces_structure Demo.fresh
                  (perform_staple_operations "delete" Demo.loaded).2
                  "design.json" "" "" eq_refl eq_refl)).
Defined.

(** X14 at work: two failing calls after loading. *)
Lemma session_keeps_structure_witness :
  let ms := [PerformStapleOperations "delete,keep"; ReadCadnanoFile "missing.json" "" ""] in
  has_structure Demo.loaded = true /\
  has_structure (run_session ms Demo.loaded) = true.
Proof.
  split; [reflexivity |].
  apply (session_keeps_structure Demo.loaded
           [PerformStapleOperations "delete,keep"; ReadCadnanoFile "missing.json" "" ""]
           eq_refl).
Defined.

(** X15 at work: writing from a new converter. *)
Lemma writers_without_structure_witness :
  dna_structure (self Demo.fresh) = None /\
  write_topology_file "out.json" Demo.fresh
    = (Raise (AttributeError "write_topology"), Demo.fresh).
Proof.
  split; [reflexivity |].
  exact (proj1 (writers_without_structure Demo.fresh "out.json" eq_refl)).
Defined.
